(** * Budgeted Fitted-Q iteration: the [BudgetedFittedQ] class of
    [rl_agents/agents/budgeted_ftq/bftq.py], embedded as state-passing
    functions over the object's attributes.

    Scalars (Python floats, one-element tensors) are rationals [Q]; one
    dimensional tensors are lists; a batch of vectors is a list of lists.
    Python exceptions are the [Raise] outcome of a computation.  The
    attributes of [self] survive an exception, as they do in Python.

    Moving a tensor to the device, emptying the device cache and logging do
    not touch the attributes of the object and are left out (moving the
    network to the device, in [__init__], is kept); a pool of workers is its
    in-order map. *)

From Stdlib Require Import String Ascii.
From Stdlib Require Import List Arith Lia Bool.
From Stdlib Require Import QArith Qminmax Lqa.
Import ListNotations.

Local Set Warnings "-register-all".

Set Implicit Arguments.
Local Open Scope Q_scope.

(** ** Exceptions and outcomes *)

Inductive exn : Type :=
| TypeError
| ValueError
| AttributeError
| IndexError
| RuntimeError
| SyntaxError
| NameError.

Inductive result (A : Type) : Type :=
| Ok (a : A)
| Raise (e : exn).

Arguments Ok {A} a.
Arguments Raise {A} e.

Definition rbind {A B : Type} (r : result A) (k : A -> result B) : result B :=
  match r with
  | Ok a => k a
  | Raise e => Raise e
  end.

Fixpoint mapR {A B : Type} (f : A -> result B) (l : list A) : result (list B) :=
  match l with
  | [] => Ok []
  | x :: l' =>
      rbind (f x) (fun y => rbind (mapR f l') (fun ys => Ok (y :: ys)))
  end.

(** ** Python values that reach the class through its configuration *)

Inductive pyval : Type :=
| PyNone
| PyNum (x : Q)
| PyStr (s : string)
| PyList (l : list pyval)
| PyArray (a : list Q).       (* a one dimensional numpy array *)

Definition Qnonzero (x : Q) : bool := negb (Qeq_bool x 0).

(** [bool(v)], the test of an [if v:]. *)
Definition truthy (v : pyval) : result bool :=
  match v with
  | PyNone => Ok false
  | PyNum x => Ok (Qnonzero x)
  | PyStr s => Ok (negb (String.eqb s EmptyString))
  | PyList l => Ok (match l with [] => false | _ :: _ => true end)
  | PyArray [] => Ok false
  | PyArray [x] => Ok (Qnonzero x)
  | PyArray (_ :: _ :: _) => Raise ValueError
  end.

(** [for x in v]: the items the loop visits. *)
Definition py_iter (v : pyval) : result (list pyval) :=
  match v with
  | PyList l => Ok l
  | PyArray a => Ok (map PyNum a)
  | PyStr s =>
      Ok (map (fun c => PyStr (String c EmptyString)) (list_ascii_of_string s))
  | PyNone | PyNum _ => Raise TypeError
  end.

(** [len(v)]. *)
Definition py_len (v : pyval) : result nat :=
  match v with
  | PyList l => Ok (length l)
  | PyArray a => Ok (length a)
  | PyStr s => Ok (String.length s)
  | PyNone | PyNum _ => Raise TypeError
  end.

(** The float a number stands for inside [torch.tensor(..., dtype=torch.float)]
    or as the left operand of [* beta].  Multipliers are numbers here: what
    torch builds from a multiplier of another kind is outside this model,
    which refuses it. *)
Definition as_float (v : pyval) : result Q :=
  match v with
  | PyNum x => Ok x
  | _ => Raise TypeError
  end.

(** [torch.from_numpy(v)] accepts numpy arrays only. *)
Definition from_numpy (v : pyval) : result (list Q) :=
  match v with
  | PyArray a => Ok a
  | _ => Raise TypeError
  end.

(** ** Data model of [budgeted_utils] *)

Record HullPoint : Type := {
  hp_action : nat;
  hp_budget : Q;
  qc : Q;
  qr : Q
}.

Record Mixture : Type := {
  inf : HullPoint;
  sup : HullPoint;
  probability_sup : Q
}.

(** Modelled from the spec: the frontier type of [budgeted_utils] is not under
    src; a frontier is "an ordered sequence of evaluation points". *)
Definition hull : Type := list HullPoint.

Record TransitionBFTQ : Type := {
  state : list Q;
  action : nat;
  reward : Q;
  next_state : list Q;
  terminal : bool;
  cost : Q;
  beta : Q
}.

(** The two kinds of object that [compute_all_optimal_mixtures] is handed:
    an entry of a budget tensor and a frontier. *)
Inductive pyobj : Type :=
| ObjTensor (x : Q)
| ObjHull (h : hull).

(** [o.detach().item()]: defined on tensors; a sequence of points has no
    attribute [detach]. *)
Definition detach_item (o : pyobj) : result Q :=
  match o with
  | ObjTensor x => Ok x
  | ObjHull _ => Raise AttributeError
  end.

(** [xs[i]] *)
Definition getitem {A : Type} (xs : list A) (i : nat) : result A :=
  match nth_error xs i with
  | Some x => Ok x
  | None => Raise IndexError
  end.

(** ** Tensor operations used by the class (one dimensional tensors) *)

Definition zeros (n : nat) : list Q := repeat 0 n.

Fixpoint map2 (f : Q -> Q -> Q) (a b : list Q) : list Q :=
  match a, b with
  | x :: a', y :: b' => f x y :: map2 f a' b'
  | _, _ => []
  end.

(** Elementwise binary operation with torch's broadcasting of a
    one-element operand. *)
Definition broadcast2 (f : Q -> Q -> Q) (a b : list Q) : result (list Q) :=
  if Nat.eqb (length a) (length b) then Ok (map2 f a b)
  else match a, b with
       | [x], _ => Ok (map (f x) b)
       | _, [y] => Ok (map (fun x => f x y) a)
       | _, _ => Raise RuntimeError
       end.

Definition tensor_add : list Q -> list Q -> result (list Q) := broadcast2 Qplus.

Definition tensor_scale (k : Q) (a : list Q) : list Q := map (Qmult k) a.

(** [torch.clamp(x, min=lo, max=hi)] on one entry. *)
Definition clamp (lo hi x : Q) : Q := Qmin (Qmax x lo) hi.

(** [xs[mask]] for a boolean mask. *)
Fixpoint masked {A : Type} (xs : list A) (mask : list bool) : list A :=
  match xs, mask with
  | x :: xs', m :: mask' => if m then x :: masked xs' mask' else masked xs' mask'
  | _, _ => []
  end.

Definition mask_index {A : Type} (xs : list A) (mask : list bool)
  : result (list A) :=
  if Nat.eqb (length xs) (length mask) then Ok (masked xs mask)
  else Raise IndexError.

(** [dst[mask] = src]: the entries of [src] go, in order, to the positions
    where the mask holds. *)
Fixpoint mask_put (dst : list Q) (mask : list bool) (src : list Q) : list Q :=
  match dst, mask with
  | d :: dst', m :: mask' =>
      if m then
        match src with
        | v :: src' => v :: mask_put dst' mask' src'
        | [] => d :: mask_put dst' mask' []
        end
      else d :: mask_put dst' mask' src
  | _, _ => dst
  end.

Definition count_true (mask : list bool) : nat :=
  length (filter (fun b => b) mask).

Definition mask_assign (dst : list Q) (mask : list bool) (src : list Q)
  : result (list Q) :=
  if Nat.eqb (length dst) (length mask) then
    if Nat.eqb (length src) (count_true mask) then Ok (mask_put dst mask src)
    else Raise RuntimeError
  else Raise IndexError.

(** [xs[i] = v] *)
Fixpoint setitem (xs : list Q) (i : nat) (v : Q) : result (list Q) :=
  match xs, i with
  | [], _ => Raise IndexError
  | _ :: xs', O => Ok (v :: xs')
  | x :: xs', S i' => rbind (setitem xs' i' v) (fun r => Ok (x :: r))
  end.

Definition enumerate {A : Type} (l : list A) : list (nat * A) :=
  combine (seq 0 (length l)) l.

Fixpoint sum (l : list nat) : nat :=
  match l with
  | [] => O
  | x :: l' => (x + sum l')%nat
  end.

(** [xs[a:b]] *)
Definition slice {A : Type} (a b : nat) (xs : list A) : list A :=
  firstn (b - a) (skipn a xs).

(** [torch.cat(chunks)]: refuses an empty list of tensors (with an error
    whose class has changed between releases of torch). *)
Definition torch_cat {A : Type} (chunks : list (list A)) : result (list A) :=
  match chunks with
  | [] => Raise ValueError
  | _ :: _ => Ok (concat chunks)
  end.

(** [values.gather(1, index)]: entry [index[i]] of row [i], for every row of
    the index.  An index outside its row and an index with more rows than
    [values] are both refused by torch. *)
Fixpoint gather (values : list (list Q)) (index : list nat) : result (list Q) :=
  match index, values with
  | [], _ => Ok []
  | i :: index', row :: values' =>
      match nth_error row i with
      | Some v => rbind (gather values' index') (fun vs => Ok (v :: vs))
      | None => Raise RuntimeError
      end
  | _ :: _, [] => Raise RuntimeError
  end.

(** [torch.cat(rows)] along the first axis, for a non-empty sequence of
    tensors of shape (1, 1, d): the rows must agree on d. *)
Definition same_width (rows : list (list Q)) : bool :=
  match rows with
  | [] => true
  | r :: rest => forallb (fun r' => Nat.eqb (length r') (length r)) rest
  end.

Definition cat_rows (rows : list (list Q)) : result (list (list Q)) :=
  if same_width rows then Ok rows else Raise RuntimeError.

(** [1 - terminals] for the tensor of termination flags.  [push] stores the
    flags with [dtype=torch.bool] and [torch.cat] keeps that type; torch
    refuses to subtract a bool tensor. *)
Definition one_minus (terminals : list bool) : result (list bool) :=
  Raise RuntimeError.

(** Expected reward and cost of a mixture, as written in the loop of
    [constrained_next_values]. *)
Definition mixture_reward (mix : Mixture) : Q :=
  (1 - probability_sup mix) * qr (inf mix) + probability_sup mix * qr (sup mix).

Definition mixture_cost (mix : Mixture) : Q :=
  (1 - probability_sup mix) * qc (inf mix) + probability_sup mix * qc (sup mix).

(** The loop [for i, mix in enumerate(mixtures)] of
    [constrained_next_values]. *)
Fixpoint fill_expectations (mixtures : list (nat * Mixture))
  (next_rewards_nf next_costs_nf : list Q) : result (list Q * list Q) :=
  match mixtures with
  | [] => Ok (next_rewards_nf, next_costs_nf)
  | (i, mix) :: rest =>
      rbind (setitem next_rewards_nf i (mixture_reward mix)) (fun nr =>
      rbind (setitem next_costs_nf i (mixture_cost mix)) (fun nc =>
      fill_expectations rest nr nc))
  end.

(** Lines 171 to 177 of [constrained_next_values]: from the mixtures of the
    non-final next states to the bootstrap values of the whole batch, which
    are assigned under the mask [1 - terminals]. *)
Definition mixture_next_values (n_nf : nat) (terminals : list bool)
  (mixtures : list Mixture) (next_rewards next_costs : list Q)
  : result (list Q * list Q) :=
  rbind (fill_expectations (enumerate mixtures) (zeros n_nf) (zeros n_nf))
    (fun nf =>
  rbind (one_minus terminals) (fun non_final_r =>
  rbind (mask_assign next_rewards non_final_r (fst nf)) (fun nr =>
  rbind (one_minus terminals) (fun non_final_c =>
  rbind (mask_assign next_costs non_final_c (snd nf)) (fun nc =>
  Ok (nr, nc)))))).

(** [next_states.squeeze()] drops every axis of size one of the batch of
    shape (n, 1, d).  For two or more states of one component the state
    axis goes too, and [repeat] then tiles the whole batch instead of
    repeating each state. *)
Definition squeeze_drops_state_axis (next_states : list (list Q)) : bool :=
  Nat.leb 2 (length next_states)
  && forallb (fun s => Nat.eqb (length s) 1) next_states.

(** The rows of [ss]: [next_states.squeeze().repeat((1, n_beta))] viewed as
    n * n_beta rows. *)
Definition state_rows (next_states : list (list Q)) (n_beta : nat)
  : list (list Q) :=
  if squeeze_drops_state_axis next_states
  then concat (repeat next_states n_beta)
  else flat_map (fun s => repeat s n_beta) next_states.

(** The rows of [bb]: the column of budgets repeated once per state. *)
Definition budget_rows (betas : list Q) (n_states : nat) : list (list Q) :=
  concat (repeat (map (fun b => [b]) betas) n_states).

(** [torch.cat((ss, bb), dim=1)] *)
Fixpoint cat_columns (ss bb : list (list Q)) : list (list Q) :=
  match ss, bb with
  | s :: ss', b :: bb' => (s ++ b) :: cat_columns ss' bb'
  | _, _ => []
  end.

(** The batch [sb] of state and budget rows that [compute_next_values]
    evaluates. *)
Definition state_budget_rows (next_states : list (list Q)) (betas : list Q)
  : list (list Q) :=
  cat_columns (state_rows next_states (length betas))
              (budget_rows betas (length next_states)).

(** The cartesian product of the next states with the budget grid: each
    next state with every budget of the grid, state by state. *)
Definition cartesian_product (next_states : list (list Q)) (betas : list Q)
  : list (list Q) :=
  flat_map (fun s => map (fun b => s ++ [b]) betas) next_states.

(** ** Configuration: the keys of [config] that the class reads *)

Record Config : Type := {
  cfg_betas_for_duplication : pyval;
  cfg_betas_for_discretisation : pyval;
  cfg_loss_function : pyval;
  cfg_loss_function_c : pyval;
  device : pyval;
  gamma : Q;
  gamma_c : Q;
  clamp_Qc : option (Q * Q);
  max_ftq_epochs : nat;
  delta_stop : Q;
  reset_network_each_epoch : bool;
  max_nn_epoch : nat;
  split_batches : nat;
  weights_losses : Q * Q;
  hull_options : pyval;
  optimizer_type : pyval;
  learning_rate : Q;
  weight_decay : Q
}.

(** Lines 131 to 136 of [compute_targets]. *)
Definition bellman_targets (cfg : Config) (rewards costs : list Q)
  (next_rewards next_costs : list Q) : result (list Q * list Q) :=
  rbind (tensor_add rewards (tensor_scale (gamma cfg) next_rewards))
    (fun target_r =>
  rbind (tensor_add costs (tensor_scale (gamma_c cfg) next_costs))
    (fun target_c =>
  match clamp_Qc cfg with
  | Some (lo, hi) => Ok (target_r, map (clamp lo hi) target_c)
  | None => Ok (target_r, target_c)
  end)).

(** ** Collaborators that are not part of this class

    The value network, the loss and optimizer factories, automatic
    differentiation, Python's [eval], [near_split] of [rl_agents.agents.utils]
    and the two functions of [budgeted_utils] are used through their
    interface only.  Moving the network to a device and reading the width
    of its output layer can fail; so can [eval]. *)

Class Collaborators : Type := {
  network : Type;
  optimizer_t : Type;
  (* self._value_network(batch) *)
  forward : network -> list (list Q) -> list (list Q);
  (* self._value_network.reset() *)
  net_reset : network -> network;
  set_normalization_params : network -> list Q -> list Q -> network;
  (* self._value_network.to(device) *)
  to_device : network -> pyval -> result network;
  (* self._value_network.predict.out_features *)
  out_features : network -> result nat;
  (* torch.mean(x, 0) and torch.std(x, 0) *)
  batch_mean : list (list Q) -> list Q;
  batch_std : list (list Q) -> list Q;
  loss_function_factory : pyval -> result (list Q -> list Q -> Q);
  optimizer_factory : pyval -> network -> Q -> Q -> result optimizer_t;
  (* loss.backward(): the gradient of a loss at the current parameters *)
  backward : (network -> result Q) -> network -> list Q;
  (* optimizer.step() with the given (clipped) gradients *)
  optimizer_step : optimizer_t -> network -> list Q -> optimizer_t * network;
  (* eval(s) for a string s *)
  py_eval : string -> result pyval;
  (* eval(a) for a numpy array a, whose bytes the interpreter reads as
     source text *)
  py_eval_buffer : list Q -> result pyval;
  near_split : nat -> nat -> list nat;
  compute_convex_hull_from_values :
    list (list Q) -> pyval -> pyval -> option (Q * Q) ->
    result (hull * pyval * pyval * pyval);
  optimal_mixture : pyobj -> Q -> result Mixture
}.

Section BFTQ.

Context {collaborators : Collaborators}.

(** ** The object *)

Record BudgetedFittedQ : Type := {
  config : Config;
  betas_for_duplication : pyval;
  betas_for_discretisation : pyval;
  loss_function : list Q -> list Q -> Q;
  loss_function_c : list Q -> list Q -> Q;
  _value_network : network;
  n_actions : nat;
  memory : list TransitionBFTQ;
  optimizer : option optimizer_t;
  epoch : nat;
  size_batch : nat
}.

Definition set_value_network (self : BudgetedFittedQ) (net : network) :=
  {| config := config self;
     betas_for_duplication := betas_for_duplication self;
     betas_for_discretisation := betas_for_discretisation self;
     loss_function := loss_function self;
     loss_function_c := loss_function_c self;
     _value_network := net;
     n_actions := n_actions self;
     memory := memory self;
     optimizer := optimizer self;
     epoch := epoch self;
     size_batch := size_batch self |}.

Definition set_optimizer (self : BudgetedFittedQ) (o : option optimizer_t) :=
  {| config := config self;
     betas_for_duplication := betas_for_duplication self;
     betas_for_discretisation := betas_for_discretisation self;
     loss_function := loss_function self;
     loss_function_c := loss_function_c self;
     _value_network := _value_network self;
     n_actions := n_actions self;
     memory := memory self;
     optimizer := o;
     epoch := epoch self;
     size_batch := size_batch self |}.

Definition set_memory (self : BudgetedFittedQ) (m : list TransitionBFTQ) :=
  {| config := config self;
     betas_for_duplication := betas_for_duplication self;
     betas_for_discretisation := betas_for_discretisation self;
     loss_function := loss_function self;
     loss_function_c := loss_function_c self;
     _value_network := _value_network self;
     n_actions := n_actions self;
     memory := m;
     optimizer := optimizer self;
     epoch := epoch self;
     size_batch := size_batch self |}.

Definition set_epoch (self : BudgetedFittedQ) (e : nat) :=
  {| config := config self;
     betas_for_duplication := betas_for_duplication self;
     betas_for_discretisation := betas_for_discretisation self;
     loss_function := loss_function self;
     loss_function_c := loss_function_c self;
     _value_network := _value_network self;
     n_actions := n_actions self;
     memory := memory self;
     optimizer := optimizer self;
     epoch := e;
     size_batch := size_batch self |}.

Definition set_size_batch (self : BudgetedFittedQ) (n : nat) :=
  {| config := config self;
     betas_for_duplication := betas_for_duplication self;
     betas_for_discretisation := betas_for_discretisation self;
     loss_function := loss_function self;
     loss_function_c := loss_function_c self;
     _value_network := _value_network self;
     n_actions := n_actions self;
     memory := memory self;
     optimizer := optimizer self;
     epoch := epoch self;
     size_batch := n |}.

(** ** Methods run in a state-and-exception monad over [self] *)

Definition M (A : Type) : Type := BudgetedFittedQ -> result A * BudgetedFittedQ.

Definition ret {A : Type} (a : A) : M A := fun self => (Ok a, self).

Definition raise {A : Type} (e : exn) : M A := fun self => (Raise e, self).

Definition bind {A B : Type} (m : M A) (k : A -> M B) : M B :=
  fun self =>
    match m self with
    | (Ok a, self') => k a self'
    | (Raise e, self') => (Raise e, self')
    end.

Definition get : M BudgetedFittedQ := fun self => (Ok self, self).

Definition modify (f : BudgetedFittedQ -> BudgetedFittedQ) : M unit :=
  fun self => (Ok tt, f self).

Definition lift {A : Type} (r : result A) : M A := fun self => (r, self).

Fixpoint mapM {A B : Type} (f : A -> M B) (l : list A) : M (list B) :=
  match l with
  | [] => ret []
  | x :: l' =>
      bind (f x) (fun y => bind (mapM f l') (fun ys => ret (y :: ys)))
  end.

Notation "x <- m ;; k" := (bind m (fun x => k))
  (at level 61, m at next level, right associativity).
Notation "m ;;; k" := (bind m (fun _ => k))
  (at level 61, right associativity).

(** [for _ in range(n): body], collecting what each round returns. *)
Fixpoint repeatM {A : Type} (n : nat) (body : M A) : M (list A) :=
  match n with
  | O => ret []
  | S n' => x <- body ;; xs <- repeatM n' body ;; ret (x :: xs)
  end.

(** *** [reset_network], [reset], [__init__] *)

Definition reset_network : M unit :=
  modify (fun self => set_value_network self (net_reset (_value_network self))).

Definition reset (reset_weight : bool) : M unit :=
  (if reset_weight then reset_network else ret tt) ;;;
  self <- get ;;
  o <- lift (optimizer_factory (optimizer_type (config self))
               (_value_network self)
               (learning_rate (config self)) (weight_decay (config self))) ;;
  modify (fun self => set_optimizer self (Some o)) ;;;
  modify (fun self => set_epoch self 0).

(** [eval(v)]: a string is evaluated by the interpreter; so is a numpy
    array, which offers its bytes as source text; [None], a number and a
    list are refused with a [TypeError]. *)
Definition eval (v : pyval) : result pyval :=
  match v with
  | PyStr s => py_eval s
  | PyArray a => py_eval_buffer a
  | PyNone | PyNum _ | PyList _ => Raise TypeError
  end.

(** [try: x = eval(v)  except TypeError: x = v] *)
Definition load_betas (v : pyval) : result pyval :=
  match eval v with
  | Ok x => Ok x
  | Raise TypeError => Ok v
  | Raise e => Raise e
  end.

Definition __init__ (policy_network : network) (cfg : Config)
  : result BudgetedFittedQ :=
  rbind (load_betas (cfg_betas_for_duplication cfg)) (fun b_dup =>
  rbind (load_betas (cfg_betas_for_discretisation cfg)) (fun b_dis =>
  rbind (loss_function_factory (cfg_loss_function cfg)) (fun lf =>
  rbind (loss_function_factory (cfg_loss_function_c cfg)) (fun lf_c =>
  rbind (to_device policy_network (device cfg)) (fun net =>
  rbind (out_features net) (fun width =>
  let self :=
    {| config := cfg;
       betas_for_duplication := b_dup;
       betas_for_discretisation := b_dis;
       loss_function := lf;
       loss_function_c := lf_c;
       _value_network := net;
       n_actions := Nat.div width 2;
       memory := [];
       optimizer := None;
       epoch := O;
       size_batch := O |} in
  match reset true self with
  | (Ok _, self') => Ok self'
  | (Raise e, _) => Raise e
  end)))))).

(** *** [push] *)

(** Modelled from the spec: [ReplayMemory] is not under src; the transition
    store keeps the pushed transitions as an ordered sequence. *)
Definition memory_push (t : TransitionBFTQ) : M unit :=
  modify (fun self => set_memory self (memory self ++ [t])).

(** The budget stored for the multiplier [beta_d]: [if beta:] holds for a
    budget that is neither [None] nor zero. *)
Definition duplicated_beta (beta_d : pyval) (beta : option Q) : result Q :=
  match beta with
  | Some b =>
      if Qnonzero b then rbind (as_float beta_d) (fun d => Ok (d * b))
      else as_float beta_d
  | None => as_float beta_d
  end.

Definition push (state : list Q) (action : nat) (reward : Q)
  (next_state : list Q) (terminal : bool) (cost : Q) (beta : option Q)
  : M unit :=
  self <- get ;;
  dup <- lift (truthy (betas_for_duplication self)) ;;
  if (dup : bool) then
    items <- lift (py_iter (betas_for_duplication self)) ;;
    mapM (fun beta_d =>
            b <- lift (duplicated_beta beta_d beta) ;;
            memory_push
              {| state := state; action := action; reward := reward;
                 next_state := next_state; terminal := terminal;
                 cost := cost; beta := b |}) items ;;;
    ret tt
  else
    match beta with
    | Some b =>
        memory_push
          {| state := state; action := action; reward := reward;
             next_state := next_state; terminal := terminal;
             cost := cost; beta := b |}
    | None => raise TypeError
    end.

(** *** [_zip_batch] *)

Record ZippedBatch : Type := {
  z_states_betas : list (list Q);
  z_actions : list nat;
  z_rewards : list Q;
  z_costs : list Q;
  z_next_states : list (list Q);
  z_betas : list Q;
  z_terminals : list bool
}.

Definition _zip_batch : M ZippedBatch :=
  self <- get ;;
  let batch := memory self in
  modify (fun self => set_size_batch self (length batch)) ;;;
  match batch with
  | [] => raise TypeError        (* TransitionBFTQ() without its fields *)
  | _ :: _ =>
      lift (cat_rows (map state batch)) ;;;        (* torch.cat(zipped.state) *)
      lift (cat_rows (map next_state batch)) ;;;   (* torch.cat(zipped.next_state) *)
      let state_beta_batch := map (fun t => state t ++ [beta t]) batch in
      modify (fun self =>
                set_value_network self
                  (set_normalization_params (_value_network self)
                     (batch_mean state_beta_batch)
                     (batch_std state_beta_batch))) ;;;
      ret {| z_states_betas := state_beta_batch;
             z_actions := map action batch;
             z_rewards := map reward batch;
             z_costs := map cost batch;
             z_next_states := map next_state batch;
             z_betas := map beta batch;
             z_terminals := map terminal batch |}
  end.

(** *** The constrained backup *)

Definition compute_next_values (next_states : list (list Q))
  : M (list (list Q)) :=
  self <- get ;;
  n_beta <- lift (py_len (betas_for_discretisation self)) ;;
  let ss := state_rows next_states n_beta in
  bb <- lift (from_numpy (betas_for_discretisation self)) ;;
  let sb := cat_columns ss (budget_rows bb (length next_states)) in
  let batch_sizes := near_split (length sb) (split_batches (config self)) in
  q_values <-
    mapM (fun minibatch =>
            self <- get ;;
            let mini_batch :=
              slice (sum (firstn minibatch batch_sizes))
                    (sum (firstn (minibatch + 1) batch_sizes)) sb in
            ret (forward (_value_network self) mini_batch))
         (seq 0 (split_batches (config self))) ;;
  lift (torch_cat q_values).

(** Unpacking the transposed results into four names ([hulls] and three
    unused ones) needs at least one result. *)
Definition unzip_hulls (results : list (hull * pyval * pyval * pyval))
  : result (list hull) :=
  match results with
  | [] => Raise ValueError
  | _ :: _ => Ok (map (fun r => fst (fst (fst r))) results)
  end.

(** The pool of workers maps the hull builder over the parameters and
    returns the results in the order of submission. *)
Definition compute_all_hulls (q_values : list (list Q)) (states_count : nat)
  : M (list hull) :=
  self <- get ;;
  n_beta <- lift (py_len (betas_for_discretisation self)) ;;
  let hull_params :=
    map (fun state =>
           slice (state * n_beta) ((state + 1) * n_beta) q_values)
        (seq 0 states_count) in
  results <-
    lift (mapR (fun values =>
                  compute_convex_hull_from_values values
                    (betas_for_discretisation self)
                    (hull_options (config self))
                    (clamp_Qc (config self)))
               hull_params) ;;
  lift (unzip_hulls results).

(** The argument tuple [(hulls[i], beta.detach().item())] built for entry
    [i] of [b_batch]. *)
Definition mixture_arguments (hulls : list pyobj) (i : nat) (beta : pyobj)
  : result (pyobj * Q) :=
  rbind (getitem hulls i) (fun h =>
  rbind (detach_item beta) (fun b => Ok (h, b))).

Definition compute_all_optimal_mixtures (b_batch hulls : list pyobj)
  : M (list Mixture) :=
  args <- lift (mapR (fun ib => mixture_arguments hulls (fst ib) (snd ib))
                     (enumerate b_batch)) ;;
  lift (mapR (fun hb => optimal_mixture (fst hb) (snd hb)) args).

(** Lines 157 to 168 of [constrained_next_values]: the non-final next states,
    selected under the mask [1 - terminals], their Q-values, their hulls and
    the mixtures.  The call passes [hulls] first and [betas_nf] second, and
    so binds them to the parameters [b_batch] and [hulls] of
    [compute_all_optimal_mixtures], in that order. *)
Definition select_mixtures (next_states : list (list Q)) (betas : list Q)
  (terminals : list bool) : M (nat * list Mixture) :=
  non_final <- lift (one_minus terminals) ;;
  next_states_nf <- lift (mask_index next_states non_final) ;;
  non_final_b <- lift (one_minus terminals) ;;
  betas_nf <- lift (mask_index betas non_final_b) ;;
  q_values <- compute_next_values next_states_nf ;;
  hulls <- compute_all_hulls q_values (length next_states_nf) ;;
  mixtures <- compute_all_optimal_mixtures
                (map ObjHull hulls) (map ObjTensor betas_nf) ;;
  ret (length next_states_nf, mixtures).

Definition constrained_next_values (next_states : list (list Q))
  (betas : list Q) (terminals : list bool) : M (list Q * list Q) :=
  self <- get ;;
  let next_rewards := zeros (length next_states) in
  let next_costs := zeros (length next_states) in
  if Nat.eqb (epoch self) 0 then ret (next_rewards, next_costs)
  else
    selected <- select_mixtures next_states betas terminals ;;
    lift (mixture_next_values (fst selected) terminals (snd selected)
            next_rewards next_costs).

Definition compute_targets (rewards costs : list Q)
  (next_states : list (list Q)) (betas : list Q) (terminals : list bool)
  : M (list Q * list Q) :=
  next <- constrained_next_values next_states betas terminals ;;
  self <- get ;;
  lift (bellman_targets (config self) rewards costs (fst next) (snd next)).

(** *** The regression fit *)

Definition _compute_loss (states_betas : list (list Q)) (actions : list nat)
  (target_r target_c : list Q) : M Q :=
  self <- get ;;
  let values := forward (_value_network self) states_betas in
  q_r <- lift (gather values actions) ;;
  q_c <- lift (gather values (map (fun a => (a + n_actions self)%nat) actions)) ;;
  let loss_qc := loss_function_c self q_c target_c in
  let loss_qr := loss_function self q_r target_r in
  let w_r := fst (weights_losses (config self)) in
  let w_c := snd (weights_losses (config self)) in
  ret (w_c * loss_qc + w_r * loss_qr).

Definition _gradient_step (states_betas : list (list Q)) (actions : list nat)
  (target_r target_c : list Q) : M Q :=
  loss <- _compute_loss states_betas actions target_r target_c ;;
  self <- get ;;
  match optimizer self with
  | None => raise AttributeError
  | Some opt =>
      let grads :=
        backward
          (fun net =>
             fst (_compute_loss states_betas actions target_r target_c
                    (set_value_network self net)))
          (_value_network self) in
      let clipped := map (clamp (- (1)) 1) grads in
      let stepped := optimizer_step opt (_value_network self) clipped in
      modify (fun self =>
                set_optimizer (set_value_network self (snd stepped))
                  (Some (fst stepped))) ;;;
      ret loss
  end.

Definition _fit (states_betas : list (list Q)) (actions : list nat)
  (target_r target_c : list Q) : M Q :=
  delta <- _compute_loss states_betas actions target_r target_c ;;
  self <- get ;;
  (if reset_network_each_epoch (config self) then reset_network else ret tt) ;;;
  repeatM (max_nn_epoch (config self))
          (_gradient_step states_betas actions target_r target_c) ;;;
  ret delta.

(** *** [_epoch] and [run] *)

Definition _epoch : M Q :=
  z <- _zip_batch ;;
  targets <- compute_targets (z_rewards z) (z_costs z) (z_next_states z)
               (z_betas z) (z_terminals z) ;;
  _fit (z_states_betas z) (z_actions z) (fst targets) (snd targets).

(** [for self.epoch in range(...)]: the loop of [run] over the remaining
    epoch indices.  It returns the residuals it has seen, in order; [run]
    drops them. *)
Fixpoint run_loop (epoch_body : M Q) (epochs : list nat) : M (list Q) :=
  match epochs with
  | [] => ret []
  | e :: rest =>
      modify (fun self => set_epoch self e) ;;;
      delta <- epoch_body ;;
      self <- get ;;
      if Qlt_le_dec delta (delta_stop (config self)) then ret [delta]
      else deltas <- run_loop epoch_body rest ;; ret (delta :: deltas)
  end.

Definition run_with (epoch_body : M Q) : M network :=
  self <- get ;;
  run_loop epoch_body (seq 0 (max_ftq_epochs (config self))) ;;;
  self <- get ;;
  ret (_value_network self).

Definition run : M network := run_with _epoch.

(** A computation is read-only when it leaves every attribute of [self] as
    it found it, whether it returns or raises. *)
Definition read_only {A : Type} (m : M A) : Prop :=
  forall self, snd (m self) = self.

(** A computation keeps the configuration when the object it leaves has
    the configuration it started with. *)
Definition keeps_config {A : Type} (m : M A) : Prop :=
  forall self, config (snd (m self)) = config self.

End BFTQ.

(** ** A concrete set of collaborators, for evaluating the class

    A one-weight linear network with two outputs per row (one action), a sum
    of squared errors as loss, an optimizer that moves the weight by the
    first clipped gradient, [near_split] by quotient and remainder, a hull
    builder that returns the points in the order of the budget grid and a
    mixture selector that keeps the first point of a frontier. *)

Fixpoint squared_error (prediction target : list Q) : Q :=
  match prediction, target with
  | p :: ps, t :: ts => (p - t) * (p - t) + squared_error ps ts
  | _, _ => 0
  end.

Definition quotient_split (x num_bins : nat) : list nat :=
  match num_bins with
  | O => []
  | S _ =>
      repeat (S (Nat.div x num_bins)) (Nat.modulo x num_bins)
      ++ repeat (Nat.div x num_bins) (num_bins - Nat.modulo x num_bins)
  end.

Definition grid_points (values : list (list Q)) (betas : pyval) : hull :=
  match betas with
  | PyArray bs =>
      map (fun br : Q * list Q =>
             {| hp_action := O; hp_budget := fst br;
                qc := nth 1 (snd br) 0; qr := nth 0 (snd br) 0 |})
          (combine bs values)
  | _ => []
  end.

Definition first_point_mixture (o : pyobj) (b : Q) : result Mixture :=
  match o with
  | ObjHull (p :: _) => Ok {| inf := p; sup := p; probability_sup := 0 |}
  | ObjHull [] => Raise ValueError
  | ObjTensor _ => Raise TypeError
  end.

Definition demo : Collaborators :=
  {| network := Q;
     optimizer_t := unit;
     forward := fun w rows => map (fun row => [w * hd 0 row; w]) rows;
     net_reset := fun _ => 0;
     set_normalization_params := fun w _ _ => w;
     to_device := fun w _ => Ok w;
     out_features := fun _ => Ok 2%nat;
     batch_mean := fun _ => [];
     batch_std := fun _ => [];
     loss_function_factory := fun _ => Ok squared_error;
     optimizer_factory := fun _ _ _ _ => Ok tt;
     backward := fun _ _ => [2];
     optimizer_step := fun o w g => (o, w + hd 0 g);
     py_eval := fun _ => Raise NameError;
     py_eval_buffer := fun _ => Raise ValueError;
     near_split := quotient_split;
     compute_convex_hull_from_values :=
       fun values betas _ _ => Ok (grid_points values betas, PyNone, PyNone, PyNone);
     optimal_mixture := first_point_mixture |}.

Definition demo_config : Config :=
  {| cfg_betas_for_duplication := PyList [PyNum 1; PyNum (1 # 2)];
     cfg_betas_for_discretisation := PyArray [0; 1];
     cfg_loss_function := PyStr "l2"%string;
     cfg_loss_function_c := PyStr "l2"%string;
     device := PyStr "cpu"%string;
     gamma := 9 # 10;
     gamma_c := 1;
     clamp_Qc := None;
     max_ftq_epochs := 3;
     delta_stop := 0;
     reset_network_each_epoch := true;
     max_nn_epoch := 2;
     split_batches := 2;
     weights_losses := (1, 1);
     hull_options := PyNone;
     optimizer_type := PyStr "ADAM"%string;
     learning_rate := 1 # 100;
     weight_decay := 0 |}.

Definition with_clamp_and_grid (cfg : Config) (range : option (Q * Q))
  (grid : pyval) : Config :=
  {| cfg_betas_for_duplication := cfg_betas_for_duplication cfg;
     cfg_betas_for_discretisation := grid;
     cfg_loss_function := cfg_loss_function cfg;
     cfg_loss_function_c := cfg_loss_function_c cfg;
     device := device cfg;
     gamma := gamma cfg;
     gamma_c := gamma_c cfg;
     clamp_Qc := range;
     max_ftq_epochs := max_ftq_epochs cfg;
     delta_stop := delta_stop cfg;
     reset_network_each_epoch := reset_network_each_epoch cfg;
     max_nn_epoch := max_nn_epoch cfg;
     split_batches := split_batches cfg;
     weights_losses := weights_losses cfg;
     hull_options := hull_options cfg;
     optimizer_type := optimizer_type cfg;
     learning_rate := learning_rate cfg;
     weight_decay := weight_decay cfg |}.

Definition with_epoch_limits (cfg : Config) (max_epochs : nat) (stop : Q)
  : Config :=
  {| cfg_betas_for_duplication := cfg_betas_for_duplication cfg;
     cfg_betas_for_discretisation := cfg_betas_for_discretisation cfg;
     cfg_loss_function := cfg_loss_function cfg;
     cfg_loss_function_c := cfg_loss_function_c cfg;
     device := device cfg;
     gamma := gamma cfg;
     gamma_c := gamma_c cfg;
     clamp_Qc := clamp_Qc cfg;
     max_ftq_epochs := max_epochs;
     delta_stop := stop;
     reset_network_each_epoch := reset_network_each_epoch cfg;
     max_nn_epoch := max_nn_epoch cfg;
     split_batches := split_batches cfg;
     weights_losses := weights_losses cfg;
     hull_options := hull_options cfg;
     optimizer_type := optimizer_type cfg;
     learning_rate := learning_rate cfg;
     weight_decay := weight_decay cfg |}.

(** The cost clamp set to the range from 0 to 1. *)
Definition demo_config_clamped : Config :=
  with_clamp_and_grid demo_config (Some (0, 1)) (PyArray [0; 1]).

(** The budget grid given as an empty list. *)
Definition demo_config_empty_grid : Config :=
  with_clamp_and_grid demo_config None (PyList []).

(** An object as [__init__] and two calls of [push] leave it, with a
    network weight of 1. *)
Definition demo_object (cfg : Config) (e : nat) : @BudgetedFittedQ demo :=
  {| config := cfg;
     betas_for_duplication := PyList [PyNum 1; PyNum (1 # 2)];
     betas_for_discretisation := PyArray [0; 1];
     loss_function := squared_error;
     loss_function_c := squared_error;
     _value_network := (1 : Q) : @network demo;
     n_actions := 1;
     memory :=
       [ {| state := [1; 2]; action := O; reward := 1; next_state := [3; 4];
            terminal := false; cost := 5; beta := 1 |};
         {| state := [3; 4]; action := O; reward := 2; next_state := [5; 6];
            terminal := true; cost := 7; beta := 1 # 2 |} ];
     optimizer := Some (tt : @optimizer_t demo);
     epoch := e;
     size_batch := O |}.

Definition demo_self : @BudgetedFittedQ demo := demo_object demo_config 0.

Definition demo_hull : hull :=
  [ {| hp_action := O; hp_budget := 0; qc := 0; qr := 1 |};
    {| hp_action := O; hp_budget := 1; qc := 1; qr := 3 |} ].

Definition demo_mixture : Mixture :=
  {| inf := {| hp_action := O; hp_budget := 0; qc := 2; qr := 1 |};
     sup := {| hp_action := O; hp_budget := 1; qc := 4; qr := 3 |};
     probability_sup := 1 # 2 |}.

(** The cost target that the clamp of [compute_targets] leaves: the value
    itself when no range is configured. *)
Definition clamp_target (cfg : Config) (v : Q) : Q :=
  match clamp_Qc cfg with
  | Some (lo, hi) => clamp lo hi v
  | None => v
  end.

(** The budget stored for multiplier [d]: the multiplier itself for an
    absent or zero budget, the product otherwise. *)
Definition stored_budget (d : Q) (beta : option Q) : Q :=
  match beta with
  | None => d
  | Some b => if Qeq_bool b 0 then d else d * b
  end.

(** ** Attributes that fitting leaves alone *)

Section Stable.

Context {collaborators : Collaborators}.

(** A computation keeps a view of the object when the object it leaves,
    returning or raising, shows what the object it started with showed. *)
Definition keeps {A B : Type} (view : BudgetedFittedQ -> B) (m : M A) : Prop :=
  forall self, view (snd (m self)) = view self.


End Stable.

(** The demonstration object with other multipliers, grid and
    transitions. *)
Definition demo_object_with (cfg : Config) (e : nat) (duplication : pyval)
  (grid : pyval) (transitions : list TransitionBFTQ) : @BudgetedFittedQ demo :=
  {| config := cfg;
     betas_for_duplication := duplication;
     betas_for_discretisation := grid;
     loss_function := squared_error;
     loss_function_c := squared_error;
     _value_network := (1 : Q) : @network demo;
     n_actions := 1;
     memory := transitions;
     optimizer := Some (tt : @optimizer_t demo);
     epoch := e;
     size_batch := O |}.

(** At most three epochs, with a residual threshold of 100. *)
Definition demo_config_converging : Config :=
  with_epoch_limits demo_config 3 100.

(** No epoch at all. *)
Definition demo_config_no_epochs : Config :=
  with_epoch_limits demo_config 0 0.

(** * Properties *)

(** ** Outcomes and tensors *)

Lemma rbind_ok : forall (A B : Type) (r : result A) (k : A -> result B) b,
  rbind r k = Ok b -> exists a, r = Ok a /\ k a = Ok b.
Proof.
  intros A B [a | e] k b Hr; simpl in Hr.
  - exists a. split; [reflexivity | exact Hr].
  - discriminate Hr.
Qed.

Lemma broadcast2_same_length : forall f a b,
  length a = length b -> broadcast2 f a b = Ok (map2 f a b).
Proof.
  intros f a b Hlen. unfold broadcast2.
  rewrite Hlen, Nat.eqb_refl. reflexivity.
Qed.

Lemma nth_error_map2 : forall f a b i,
  nth_error (map2 f a b) i =
  match nth_error a i, nth_error b i with
  | Some x, Some y => Some (f x y)
  | _, _ => None
  end.
Proof.
  intros f a. induction a as [| x a IH]; intros [| y b] [| i]; simpl;
    try reflexivity.
  - destruct (nth_error a i); reflexivity.
  - apply IH.
Qed.

Lemma nth_error_zeros : forall n i,
  (i < n)%nat -> nth_error (zeros n) i = Some 0.
Proof.
  intros n i Hi. unfold zeros. rewrite nth_error_repeat by exact Hi.
  reflexivity.
Qed.

Lemma length_zeros : forall n, length (zeros n) = n.
Proof. intros n. apply repeat_length. Qed.

Lemma clamp_compat : forall lo hi x y, x == y -> clamp lo hi x == clamp lo hi y.
Proof.
  intros lo hi x y Hxy. unfold clamp. rewrite Hxy. reflexivity.
Qed.

Lemma clamp_target_compat : forall cfg x y,
  x == y -> clamp_target cfg x == clamp_target cfg y.
Proof.
  intros cfg x y Hxy. unfold clamp_target.
  destruct (clamp_Qc cfg) as [[lo hi] |]; [apply clamp_compat |]; exact Hxy.
Qed.

(** What [bellman_targets] puts at each position, for columns of one
    length. *)
Lemma bellman_targets_nth : forall cfg rewards costs next_rewards next_costs,
  length rewards = length next_rewards ->
  length costs = length next_costs ->
  exists target_r target_c,
    bellman_targets cfg rewards costs next_rewards next_costs
    = Ok (target_r, target_c) /\
    (forall i,
        nth_error target_r i =
        match nth_error rewards i, nth_error next_rewards i with
        | Some r, Some x => Some (r + gamma cfg * x)
        | _, _ => None
        end) /\
    (forall i,
        nth_error target_c i =
        match nth_error costs i, nth_error next_costs i with
        | Some c, Some y => Some (clamp_target cfg (c + gamma_c cfg * y))
        | _, _ => None
        end).
Proof.
  intros cfg rewards costs nr nc Hr Hc.
  unfold bellman_targets, tensor_add, tensor_scale.
  rewrite !broadcast2_same_length by (rewrite length_map; assumption).
  simpl. unfold clamp_target.
  destruct (clamp_Qc cfg) as [[lo hi] |]; do 2 eexists;
    (split; [reflexivity | split; intros i]).
  - rewrite nth_error_map2, nth_error_map.
    destruct (nth_error rewards i), (nth_error nr i); reflexivity.
  - rewrite nth_error_map, nth_error_map2, nth_error_map.
    destruct (nth_error costs i), (nth_error nc i); reflexivity.
  - rewrite nth_error_map2, nth_error_map.
    destruct (nth_error rewards i), (nth_error nr i); reflexivity.
  - rewrite nth_error_map2, nth_error_map.
    destruct (nth_error costs i), (nth_error nc i); reflexivity.
Qed.

Lemma firstn_plus : forall (A : Type) (a b : nat) (l : list A),
  firstn (a + b) l = firstn a l ++ firstn b (skipn a l).
Proof.
  intros A a. induction a as [| a IH]; intros b l; simpl.
  - reflexivity.
  - destruct l as [| x l]; simpl.
    + rewrite firstn_nil. reflexivity.
    + rewrite IH. reflexivity.
Qed.

(** Consecutive slices whose bounds are the running sums of [sizes] tile a
    prefix of the batch. *)
Lemma concat_slices : forall (A : Type) (sizes : list nat) (sb : list A),
  concat (map (fun minibatch =>
                 slice (sum (firstn minibatch sizes))
                       (sum (firstn (minibatch + 1) sizes)) sb)
              (seq 0 (length sizes)))
  = firstn (sum sizes) sb.
Proof.
  intros A sizes. induction sizes as [| n sizes IH]; intros sb.
  - reflexivity.
  - cbn [length seq map concat]. rewrite <- seq_shift, map_map.
    rewrite (map_ext
               (fun i => slice (sum (firstn (S i) (n :: sizes)))
                               (sum (firstn (S i + 1) (n :: sizes))) sb)
               (fun i => slice (sum (firstn i sizes))
                               (sum (firstn (i + 1) sizes)) (skipn n sb))).
    + rewrite IH. unfold slice. cbn [firstn sum Nat.add skipn].
      rewrite Nat.add_0_r, Nat.sub_0_r. cbn [sum].
      symmetry. apply firstn_plus.
    + intros i. unfold slice. cbn [firstn sum Nat.add].
      rewrite skipn_skipn. f_equal; [lia | f_equal; lia].
Qed.

Lemma app_self_nil : forall (A : Type) (l : list A), l = l ++ l -> l = [].
Proof.
  intros A l Hl. apply (f_equal (@length A)) in Hl.
  rewrite length_app in Hl. destruct l; [reflexivity | simpl in Hl; lia].
Qed.

Lemma cat_columns_app : forall ss1 bb1 ss2 bb2,
  length ss1 = length bb1 ->
  cat_columns (ss1 ++ ss2) (bb1 ++ bb2)
  = cat_columns ss1 bb1 ++ cat_columns ss2 bb2.
Proof.
  intros ss1. induction ss1 as [| s ss1 IH]; intros [| b bb1] ss2 bb2 Hlen;
    simpl in *; try discriminate.
  - reflexivity.
  - rewrite IH by lia. reflexivity.
Qed.

Lemma cat_columns_one_state : forall s betas,
  cat_columns (repeat s (length betas)) (map (fun b => [b]) betas)
  = map (fun b => s ++ [b]) betas.
Proof.
  intros s betas. induction betas as [| b betas IH]; simpl.
  - reflexivity.
  - rewrite IH. reflexivity.
Qed.

(** Unless [squeeze] drops the state axis, the batch that is evaluated is
    the cartesian product of the next states with the budget grid. *)
Lemma state_budget_rows_product : forall next_states betas,
  squeeze_drops_state_axis next_states = false ->
  state_budget_rows next_states betas = cartesian_product next_states betas.
Proof.
  intros ns betas Hs. unfold state_budget_rows, state_rows, budget_rows.
  rewrite Hs. clear Hs. unfold cartesian_product.
  induction ns as [| s ns IH]; simpl.
  - reflexivity.
  - rewrite cat_columns_app by (rewrite repeat_length, length_map; reflexivity).
    rewrite cat_columns_one_state, IH. reflexivity.
Qed.

Section Properties.

Context {collaborators : Collaborators}.

Notation "x <- m ;; k" := (bind m (fun x => k))
  (at level 61, m at next level, right associativity).
Notation "m ;;; k" := (bind m (fun _ => k))
  (at level 61, right associativity).

(** ** The monad *)

Lemma bind_ok : forall (A B : Type) (m : M A) (k : A -> M B) self b self',
  bind m k self = (Ok b, self') ->
  exists a self1, m self = (Ok a, self1) /\ k a self1 = (Ok b, self').
Proof.
  intros A B m k self b self' Hb. unfold bind in Hb.
  destruct (m self) as [[a | e] self1].
  - exists a, self1. split; [reflexivity | exact Hb].
  - discriminate Hb.
Qed.

Lemma fst_bind_ok : forall (A B : Type) (m : M A) (k : A -> M B) self b,
  fst (bind m k self) = Ok b ->
  exists a self1, m self = (Ok a, self1) /\ fst (k a self1) = Ok b.
Proof.
  intros A B m k self b Hb. unfold bind in Hb.
  destruct (m self) as [[a | e] self1].
  - exists a, self1. split; [reflexivity | exact Hb].
  - discriminate Hb.
Qed.

Lemma read_only_ret : forall (A : Type) (a : A), read_only (ret a).
Proof. intros A a self. reflexivity. Qed.

Lemma read_only_raise : forall (A : Type) (e : exn), read_only (@raise _ A e).
Proof. intros A e self. reflexivity. Qed.

Lemma read_only_lift : forall (A : Type) (r : result A), read_only (lift r).
Proof. intros A r self. reflexivity. Qed.

Lemma read_only_get : read_only get.
Proof. intros self. reflexivity. Qed.

Lemma read_only_bind : forall (A B : Type) (m : M A) (k : A -> M B),
  read_only m -> (forall a, read_only (k a)) -> read_only (bind m k).
Proof.
  intros A B m k Hm Hk self. unfold bind.
  specialize (Hm self). destruct (m self) as [[a | e] self1]; simpl in Hm;
    subst self1.
  - apply Hk.
  - reflexivity.
Qed.

Lemma read_only_mapM : forall (A B : Type) (f : A -> M B) (l : list A),
  (forall x, read_only (f x)) -> read_only (mapM f l).
Proof.
  intros A B f l Hf. induction l as [| x l IH]; simpl.
  - apply read_only_ret.
  - apply read_only_bind; [apply Hf | intros y].
    apply read_only_bind; [exact IH | intros ys]. apply read_only_ret.
Qed.

Lemma read_only_if : forall (A : Type) (b : bool) (m1 m2 : M A),
  read_only m1 -> read_only m2 -> read_only (if b then m1 else m2).
Proof. intros A [|] m1 m2 H1 H2; assumption. Qed.

Create HintDb frame.

#[local] Hint Resolve read_only_ret read_only_raise read_only_lift
  read_only_get read_only_mapM read_only_if : frame.
#[local] Hint Extern 2 (read_only (bind _ _)) =>
  apply read_only_bind; [| intros ?] : frame.

Lemma read_only_compute_next_values : forall next_states,
  read_only (compute_next_values next_states).
Proof. intros next_states. unfold compute_next_values. auto 20 with frame. Qed.

Lemma read_only_compute_all_hulls : forall q_values states_count,
  read_only (compute_all_hulls q_values states_count).
Proof. intros q n. unfold compute_all_hulls. auto 20 with frame. Qed.

Lemma read_only_compute_all_optimal_mixtures : forall b_batch hulls,
  read_only (compute_all_optimal_mixtures b_batch hulls).
Proof. intros b h. unfold compute_all_optimal_mixtures. auto 20 with frame. Qed.

#[local] Hint Resolve read_only_compute_next_values
  read_only_compute_all_hulls read_only_compute_all_optimal_mixtures : frame.

Lemma read_only_select_mixtures : forall next_states betas terminals,
  read_only (select_mixtures next_states betas terminals).
Proof. intros ns b t. unfold select_mixtures. auto 20 with frame. Qed.

#[local] Hint Resolve read_only_select_mixtures : frame.

Lemma read_only_constrained_next_values : forall next_states betas terminals,
  read_only (constrained_next_values next_states betas terminals).
Proof. intros ns b t. unfold constrained_next_values. auto 20 with frame. Qed.

#[local] Hint Resolve read_only_constrained_next_values : frame.

Lemma read_only_compute_targets : forall rewards costs next_states betas terminals,
  read_only (compute_targets rewards costs next_states betas terminals).
Proof. intros r c ns b t. unfold compute_targets. auto 20 with frame. Qed.

Lemma read_only_compute_loss : forall states_betas actions target_r target_c,
  read_only (_compute_loss states_betas actions target_r target_c).
Proof. intros sb a tr tc. unfold _compute_loss. auto 20 with frame. Qed.

(** ** Target computation *)

Lemma constrained_next_values_first_epoch :
  forall next_states betas terminals self,
    epoch self = 0%nat ->
    constrained_next_values next_states betas terminals self
    = (Ok (zeros (length next_states), zeros (length next_states)), self).
Proof.
  intros ns b t self He. unfold constrained_next_values, bind, get.
  rewrite He. reflexivity.
Qed.

(** After the first epoch the backup is the selection of the mixtures
    followed by [mixture_next_values]. *)
Lemma constrained_next_values_later_epochs :
  forall next_states betas terminals self,
    epoch self <> 0%nat ->
    constrained_next_values next_states betas terminals self
    = bind (select_mixtures next_states betas terminals)
        (fun selected =>
           lift (mixture_next_values (fst selected) terminals (snd selected)
                   (zeros (length next_states)) (zeros (length next_states))))
        self.
Proof.
  intros ns b t self He. apply Nat.eqb_neq in He.
  unfold constrained_next_values, bind at 1, get. rewrite He. reflexivity.
Qed.

(** The selection stops at its first statement: the mask [1 - terminals]
    of line 158 cannot be built. *)
Lemma select_mixtures_raises : forall next_states betas terminals self,
  select_mixtures next_states betas terminals self = (Raise RuntimeError, self).
Proof. intros ns b t self. reflexivity. Qed.

Lemma backup_raises_after_first_epoch :
  forall next_states betas terminals self,
    epoch self <> 0%nat ->
    constrained_next_values next_states betas terminals self
    = (Raise RuntimeError, self).
Proof.
  intros ns b t self He.
  rewrite constrained_next_values_later_epochs by exact He.
  unfold bind. rewrite select_mixtures_raises. reflexivity.
Qed.

Lemma targets_raise_after_first_epoch :
  forall rewards costs next_states betas terminals self,
    epoch self <> 0%nat ->
    compute_targets rewards costs next_states betas terminals self
    = (Raise RuntimeError, self).
Proof.
  intros r c ns b t self He. unfold compute_targets, bind.
  rewrite backup_raises_after_first_epoch by exact He. reflexivity.
Qed.

(** Whenever the backup returns bootstrap values, they have one entry per
    transition and are zero at the terminal ones. *)
Lemma constrained_next_values_terminal :
  forall next_states betas terminals self next_rewards next_costs,
    fst (constrained_next_values next_states betas terminals self)
    = Ok (next_rewards, next_costs) ->
    length next_rewards = length next_states /\
    length next_costs = length next_states /\
    forall i, nth_error terminals i = Some true ->
              (i < length next_states)%nat ->
              nth_error next_rewards i = Some 0 /\
              nth_error next_costs i = Some 0.
Proof.
  intros ns b t self nr nc Hv.
  destruct (Nat.eqb (epoch self) 0) eqn:He.
  - apply Nat.eqb_eq in He.
    rewrite constrained_next_values_first_epoch in Hv by exact He.
    injection Hv as <- <-. rewrite !length_zeros.
    split; [reflexivity | split; [reflexivity |]].
    intros i _ Hlt. rewrite nth_error_zeros by exact Hlt. auto.
  - apply Nat.eqb_neq in He.
    rewrite backup_raises_after_first_epoch in Hv by exact He.
    discriminate Hv.
Qed.

(** C3: after the first epoch no target is computed, for a non-terminal
    transition or for any other: the backup raises when it builds the mask
    [1 - terminals] of line 158 from the bool tensor of termination flags,
    and [compute_targets] raises with it, leaving the object as it was.
    The mixture selected for a transition never reaches a target. *)
Theorem bootstrap_targets_are_never_computed :
  forall rewards costs next_states betas terminals self,
    epoch self <> 0%nat ->
    constrained_next_values next_states betas terminals self
    = (Raise RuntimeError, self) /\
    compute_targets rewards costs next_states betas terminals self
    = (Raise RuntimeError, self) /\
    forall targets,
      fst (compute_targets rewards costs next_states betas terminals self)
      <> Ok targets.
Proof.
  intros r c ns b t self He.
  split; [apply backup_raises_after_first_epoch; exact He |].
  split; [apply targets_raise_after_first_epoch; exact He |].
  intros targets Ht.
  rewrite targets_raise_after_first_epoch in Ht by exact He.
  discriminate Ht.
Qed.

(** C9: computing targets ([compute_targets], [constrained_next_values],
    [compute_next_values]) leaves the approximator's parameters, and every
    other attribute of the object, unchanged, whether the computation
    returns or raises; within an epoch the object is therefore changed only
    by the batch gathering (which sets the batch size and the normalisation
    statistics) and then by the fit phase, which runs on the object exactly
    as the target computation found it. *)
Theorem target_computation_leaves_parameters :
  forall rewards costs next_states betas terminals self,
    snd (compute_targets rewards costs next_states betas terminals self) = self /\
    snd (constrained_next_values next_states betas terminals self) = self /\
    snd (compute_next_values next_states self) = self /\
    match fst (_zip_batch self) with
    | Raise e => _epoch self = (Raise e, snd (_zip_batch self))
    | Ok z =>
        match fst (compute_targets (z_rewards z) (z_costs z) (z_next_states z)
                     (z_betas z) (z_terminals z) (snd (_zip_batch self))) with
        | Raise e => _epoch self = (Raise e, snd (_zip_batch self))
        | Ok targets =>
            _epoch self
            = _fit (z_states_betas z) (z_actions z) (fst targets) (snd targets)
                (snd (_zip_batch self))
        end
    end.
Proof.
  intros r c ns b t self.
  split; [apply read_only_compute_targets |].
  split; [apply read_only_constrained_next_values |].
  split; [apply read_only_compute_next_values |].
  unfold _epoch.
  destruct (_zip_batch self) as [[z | e] self1] eqn:Hz; simpl;
    [| unfold bind; rewrite Hz; reflexivity].
  pose proof (read_only_compute_targets (z_rewards z) (z_costs z)
                (z_next_states z) (z_betas z) (z_terminals z) self1) as Hf.
  destruct (compute_targets (z_rewards z) (z_costs z) (z_next_states z)
              (z_betas z) (z_terminals z) self1) as [[targets | e] self2]
    eqn:Ht; simpl in *; subst self2;
    unfold bind; rewrite Hz, Ht; reflexivity.
Qed.

(** C4, as amended: during the first epoch (epoch index 0) the bootstrap
    contribution of every transition is exactly zero, whatever the
    approximator computes, so the reward target of a non-terminal transition
    is its raw reward and its cost target is its raw cost, brought into the
    configured range when a cost clamp is configured (and left as it is when
    none is). *)
Theorem first_epoch_has_no_bootstrap :
  forall self rewards costs next_states betas terminals,
    epoch self = 0%nat ->
    length rewards = length next_states ->
    length costs = length next_states ->
    fst (constrained_next_values next_states betas terminals self)
    = Ok (zeros (length next_states), zeros (length next_states)) /\
    exists target_r target_c,
      fst (compute_targets rewards costs next_states betas terminals self)
      = Ok (target_r, target_c) /\
      forall i r c,
        nth_error terminals i = Some false ->
        nth_error rewards i = Some r ->
        nth_error costs i = Some c ->
        exists tr tc,
          nth_error target_r i = Some tr /\ nth_error target_c i = Some tc /\
          tr == r /\ tc == clamp_target (config self) c.
Proof.
  intros self rewards costs ns b t He Hr Hc.
  rewrite constrained_next_values_first_epoch by exact He.
  split; [reflexivity |].
  destruct (bellman_targets_nth (config self) rewards costs
              (zeros (length ns)) (zeros (length ns)))
    as [target_r [target_c [Hb [Hnr Hnc]]]];
    try (rewrite length_zeros; assumption).
  exists target_r, target_c. split.
  - unfold compute_targets, bind.
    rewrite constrained_next_values_first_epoch by exact He.
    simpl. exact Hb.
  - intros i r c _ Hri Hci.
    assert (Hlt : (i < length ns)%nat)
      by (rewrite <- Hr; apply nth_error_Some; rewrite Hri; discriminate).
    exists (r + gamma (config self) * 0),
           (clamp_target (config self) (c + gamma_c (config self) * 0)).
    rewrite Hnr, Hnc, Hri, Hci, nth_error_zeros by exact Hlt.
    repeat split; try reflexivity.
    + ring.
    + apply clamp_target_compat. ring.
Qed.

(** C2, as amended: for every terminal transition and any discount factors,
    whenever [compute_targets] returns targets, the reward target equals the
    stored reward and the cost target equals the stored cost when no cost
    clamp is configured; when a clamp range is configured the cost target is
    the stored cost brought into that range.  There is no bootstrap
    contribution. *)
Theorem terminal_targets_have_no_bootstrap :
  forall self rewards costs next_states betas terminals target_r target_c,
    length rewards = length next_states ->
    length costs = length next_states ->
    fst (compute_targets rewards costs next_states betas terminals self)
    = Ok (target_r, target_c) ->
    forall i r c,
      nth_error terminals i = Some true ->
      nth_error rewards i = Some r ->
      nth_error costs i = Some c ->
      exists tr tc,
        nth_error target_r i = Some tr /\ nth_error target_c i = Some tc /\
        tr == r /\ tc == clamp_target (config self) c.
Proof.
  intros self rewards costs ns b t target_r target_c Hr Hc Ht i r c Hti Hri Hci.
  unfold compute_targets in Ht.
  apply fst_bind_ok in Ht as [[nr nc] [self1 [Hnext Ht]]].
  pose proof (read_only_constrained_next_values ns b t self) as Hframe.
  rewrite Hnext in Hframe. simpl in Hframe. subst self1.
  assert (Hnext' : fst (constrained_next_values ns b t self) = Ok (nr, nc))
    by (rewrite Hnext; reflexivity).
  apply constrained_next_values_terminal in Hnext' as [Hlr [Hlc Hzero]].
  unfold bind, get, lift in Ht. simpl in Ht.
  destruct (bellman_targets_nth (config self) rewards costs nr nc)
    as [tr' [tc' [Hb [Hnr Hnc]]]]; try congruence.
  rewrite Hb in Ht. injection Ht as <- <-.
  assert (Hlt : (i < length ns)%nat)
    by (rewrite <- Hr; apply nth_error_Some; rewrite Hri; discriminate).
  destruct (Hzero i Hti Hlt) as [Hzr Hzc].
  exists (r + gamma (config self) * 0),
         (clamp_target (config self) (c + gamma_c (config self) * 0)).
  rewrite Hnr, Hnc, Hri, Hci, Hzr, Hzc.
  repeat split; try reflexivity.
  - ring.
  - apply clamp_target_compat. ring.
Qed.

(** ** The outer loop *)

Lemma run_loop_spec : forall (epoch_body : M Q),
  (forall self, config (snd (epoch_body self)) = config self) ->
  forall epochs self,
    match run_loop epoch_body epochs self with
    | (Ok deltas, self') =>
        config self' = config self /\
        (length deltas <= length epochs)%nat /\
        (forall i d, nth_error deltas i = Some d ->
                     d < delta_stop (config self) -> S i = length deltas) /\
        ((length deltas < length epochs)%nat ->
         exists d, nth_error deltas (length deltas - 1) = Some d /\
                   d < delta_stop (config self))
    | (Raise _, self') => config self' = config self
    end.
Proof.
  intros body Hcfg epochs. induction epochs as [| e rest IH]; intros self.
  - simpl. repeat split; auto.
    + intros [| i] d Hd; discriminate.
    + simpl. lia.
  - simpl. unfold bind at 1, modify. unfold bind at 1.
    pose proof (Hcfg (set_epoch self e)) as Hc1.
    destruct (body (set_epoch self e)) as [[delta | err] self1];
      simpl in Hc1; [| exact Hc1].
    unfold bind at 1, get.
    destruct (Qlt_le_dec delta (delta_stop (config self1))) as [Hlt | Hle].
    + simpl. rewrite Hc1 in Hlt. repeat split; auto.
      * lia.
      * intros [| [| i]] d Hd; simpl in Hd; try discriminate. reflexivity.
      * intros _. exists delta. split; [reflexivity | exact Hlt].
    + unfold bind. specialize (IH self1).
      destruct (run_loop body rest self1) as [[deltas | err] self2];
        [| simpl; congruence].
      destruct IH as [Hc2 [Hlen [Hlast Hearly]]]. rewrite Hc1 in *.
      simpl. repeat split.
      * congruence.
      * lia.
      * intros [| i] d Hd Hd'; simpl in Hd.
        -- injection Hd as <-. exfalso. apply (Qlt_irrefl delta).
           apply Qlt_le_trans with (delta_stop (config self)); assumption.
        -- f_equal. apply (Hlast i d); assumption.
      * intros Hshort. destruct Hearly as [d [Hd Hd']]; [lia |].
        exists d. split; [| exact Hd'].
        destruct deltas as [| d0 deltas]; [discriminate |].
        simpl in *. rewrite Nat.sub_0_r in *. exact Hd.
Qed.

(** The loop of [run], for any epoch body that leaves the configuration
    alone: it executes at most the configured maximum number of epochs, an
    epoch whose residual is strictly below the threshold is the last one
    executed, the loop ends before the maximum only after such an epoch,
    and the network returned is the one the last executed epoch left;
    [deltas] are the residuals of the executed epochs, in order.  An
    exception raised by an epoch leaves the loop as that exception. *)
Lemma run_with_stops_within_max_epochs : forall (epoch_body : M Q),
  (forall self, config (snd (epoch_body self)) = config self) ->
  forall self,
    match run_loop epoch_body (seq 0 (max_ftq_epochs (config self))) self with
    | (Ok deltas, self') =>
        run_with epoch_body self = (Ok (_value_network self'), self') /\
        (length deltas <= max_ftq_epochs (config self))%nat /\
        (forall i d, nth_error deltas i = Some d ->
                     d < delta_stop (config self) -> S i = length deltas) /\
        ((length deltas < max_ftq_epochs (config self))%nat ->
         exists d, nth_error deltas (length deltas - 1) = Some d /\
                   d < delta_stop (config self)) /\
        ((forall d, In d deltas -> delta_stop (config self) <= d) ->
         length deltas = max_ftq_epochs (config self))
    | (Raise e, self') => run_with epoch_body self = (Raise e, self')
    end.
Proof.
  intros body Hcfg self.
  pose proof (run_loop_spec body Hcfg
                (seq 0 (max_ftq_epochs (config self))) self) as Hspec.
  unfold run_with, bind, get.
  destruct (run_loop body (seq 0 (max_ftq_epochs (config self))) self)
    as [[deltas | err] self'] eqn:Hrun; [| reflexivity].
  rewrite length_seq in Hspec. destruct Hspec as [_ [Hlen [Hlast Hearly]]].
  repeat split; auto.
  intros Hall.
  destruct (Nat.eq_dec (length deltas) (max_ftq_epochs (config self)))
    as [Heq | Hneq]; [exact Heq | exfalso].
  destruct Hearly as [d [Hd Hd']]; [lia |].
  apply nth_error_In in Hd. apply Hall in Hd.
  apply (Qlt_irrefl d). apply Qlt_le_trans with (delta_stop (config self));
    assumption.
Qed.

(** ** The regression fit *)

Lemma compute_loss_ok : forall states_betas actions target_r target_c self delta,
  fst (_compute_loss states_betas actions target_r target_c self) = Ok delta ->
  exists q_r q_c,
    gather (forward (_value_network self) states_betas) actions = Ok q_r /\
    gather (forward (_value_network self) states_betas)
      (map (fun a => (a + n_actions self)%nat) actions) = Ok q_c /\
    delta = snd (weights_losses (config self)) * loss_function_c self q_c target_c
            + fst (weights_losses (config self)) * loss_function self q_r target_r.
Proof.
  intros sb a tr tc self delta Hd. unfold _compute_loss, bind, get, lift in Hd.
  destruct (gather (forward (_value_network self) sb) a) as [q_r | e];
    [| discriminate].
  destruct (gather (forward (_value_network self) sb)
              (map (fun a0 => (a0 + n_actions self)%nat) a)) as [q_c | e];
    [| discriminate].
  simpl in Hd. injection Hd as <-. exists q_r, q_c. auto.
Qed.

Lemma fit_returns_loss_before : forall states_betas actions target_r target_c self delta,
  fst (_fit states_betas actions target_r target_c self) = Ok delta ->
  fst (_compute_loss states_betas actions target_r target_c self) = Ok delta.
Proof.
  intros sb a tr tc self delta Hd. unfold _fit in Hd.
  apply fst_bind_ok in Hd as [delta0 [self1 [Hloss Hd]]].
  apply fst_bind_ok in Hd as [self2 [self3 [_ Hd]]].
  apply fst_bind_ok in Hd as [u [self4 [_ Hd]]].
  apply fst_bind_ok in Hd as [losses [self5 [_ Hd]]].
  simpl in Hd. injection Hd as <-. rewrite Hloss. reflexivity.
Qed.

(** C6: the residual that [_fit], and so each epoch, returns is the weighted
    regression loss of the targets it is given (for an epoch: the targets
    just computed) evaluated with the value network as it stood on entry,
    before the optional reset and the gradient steps; what the reset and
    the gradient steps do to the network does not enter the returned
    value. *)
Theorem fit_returns_residual_before_update :
  (forall states_betas actions target_r target_c self delta,
      fst (_fit states_betas actions target_r target_c self) = Ok delta ->
      fst (_compute_loss states_betas actions target_r target_c self) = Ok delta /\
      exists q_r q_c,
        gather (forward (_value_network self) states_betas) actions = Ok q_r /\
        gather (forward (_value_network self) states_betas)
          (map (fun a => (a + n_actions self)%nat) actions) = Ok q_c /\
        delta = snd (weights_losses (config self))
                * loss_function_c self q_c target_c
                + fst (weights_losses (config self))
                  * loss_function self q_r target_r) /\
  (forall self delta,
      fst (_epoch self) = Ok delta ->
      exists z self1 targets,
        _zip_batch self = (Ok z, self1) /\
        compute_targets (z_rewards z) (z_costs z) (z_next_states z)
          (z_betas z) (z_terminals z) self1 = (Ok targets, self1) /\
        fst (_compute_loss (z_states_betas z) (z_actions z)
               (fst targets) (snd targets) self1) = Ok delta).
Proof.
  split.
  - intros sb a tr tc self delta Hd.
    apply fit_returns_loss_before in Hd. split; [exact Hd |].
    apply compute_loss_ok. exact Hd.
  - intros self delta Hd. unfold _epoch in Hd.
    apply fst_bind_ok in Hd as [z [self1 [Hz Hd]]].
    apply fst_bind_ok in Hd as [targets [self2 [Ht Hd]]].
    pose proof (read_only_compute_targets (z_rewards z) (z_costs z)
                  (z_next_states z) (z_betas z) (z_terminals z) self1) as Hf.
    rewrite Ht in Hf. simpl in Hf. subst self2.
    exists z, self1, targets. repeat split; auto.
    apply fit_returns_loss_before. exact Hd.
Qed.

(** ** Forward evaluation in minibatches *)

Lemma mapM_read : forall (A B : Type) (g : BudgetedFittedQ -> A -> B) l self,
  mapM (fun x => self0 <- get ;; ret (g self0 x)) l self
  = (Ok (map (g self) l), self).
Proof.
  intros A B g l self. induction l as [| x l IH].
  - reflexivity.
  - cbn [mapM map]. unfold bind at 1. unfold bind at 1. cbn [get ret].
    unfold bind at 1. rewrite IH. reflexivity.
Qed.

Section RowWise.

Hypothesis forward_rowwise : forall net xs ys,
  forward net (xs ++ ys) = forward net xs ++ forward net ys.

Lemma forward_nil : forall net, forward net [] = [].
Proof.
  intros net. apply app_self_nil. rewrite <- forward_rowwise. reflexivity.
Qed.

Lemma forward_concat : forall net chunks,
  concat (map (forward net) chunks) = forward net (concat chunks).
Proof.
  intros net chunks. induction chunks as [| c chunks IH]; simpl.
  - symmetry. apply forward_nil.
  - rewrite forward_rowwise, IH. reflexivity.
Qed.

End RowWise.

(** C8: for every batch of next states and every minibatch count (at least
    one minibatch, with sizes that [near_split] makes add up to the batch),
    the concatenation of the forward evaluations of the minibatches in
    [compute_next_values] is the forward evaluation of the whole ordered
    batch of state and budget rows, for an approximator that evaluates a
    batch row by row. *)
Theorem minibatch_split_is_transparent : forall next_states self bb,
  (0 < split_batches (config self))%nat ->
  betas_for_discretisation self = PyArray bb ->
  length (near_split (length (state_budget_rows next_states bb))
            (split_batches (config self)))
  = split_batches (config self) ->
  sum (near_split (length (state_budget_rows next_states bb))
         (split_batches (config self)))
  = length (state_budget_rows next_states bb) ->
  (forall net xs ys, forward net (xs ++ ys) = forward net xs ++ forward net ys) ->
  compute_next_values next_states self
  = (Ok (forward (_value_network self) (state_budget_rows next_states bb)),
     self).
Proof.
  intros ns self bb Hk Hbb Hlen Hsum Hrow.
  unfold compute_next_values, bind at 1, get. unfold bind at 1, lift at 1.
  rewrite Hbb. cbn [py_len]. unfold bind at 1, lift at 1. cbn [from_numpy].
  unfold bind.
  fold (state_budget_rows ns bb).
  set (sb := state_budget_rows ns bb) in *.
  set (sizes := near_split (length sb) (split_batches (config self))) in *.
  rewrite (mapM_read
             (fun self0 minibatch =>
                forward (_value_network self0)
                  (slice (sum (firstn minibatch sizes))
                         (sum (firstn (minibatch + 1) sizes)) sb))).
  clearbody sizes. rewrite <- Hlen in *. unfold lift. f_equal.
  assert (Hcat : forall (A : Type) (l : list (list A)),
             l <> [] -> torch_cat l = Ok (concat l))
    by (intros A [| c l] Hl; [contradiction | reflexivity]).
  rewrite Hcat.
  - f_equal.
    rewrite <- (map_map
                  (fun minibatch =>
                     slice (sum (firstn minibatch sizes))
                           (sum (firstn (minibatch + 1) sizes)) sb)
                  (forward (_value_network self))).
    rewrite (forward_concat Hrow), concat_slices, Hsum.
    rewrite firstn_all. reflexivity.
  - intros Hnil. apply (f_equal (@length _)) in Hnil.
    rewrite length_map, length_seq in Hnil. simpl in Hnil. lia.
Qed.

(** ** Construction *)

Lemma load_betas_cases : forall v,
  load_betas v =
  match v with
  | PyStr s =>
      match py_eval s with
      | Ok x => Ok x
      | Raise TypeError => Ok v
      | Raise e => Raise e
      end
  | PyArray a =>
      match py_eval_buffer a with
      | Ok x => Ok x
      | Raise TypeError => Ok v
      | Raise e => Raise e
      end
  | PyNone | PyNum _ | PyList _ => Ok v
  end.
Proof. intros [| x | s | l | a]; reflexivity. Qed.

(** C7, as amended: construction does not validate the budget grid.  When
    the multiplier list loads, the loss and optimizer factories succeed,
    and the network moves to the device and shows the width of its output
    layer, construction succeeds whenever the load of the grid returns, and
    stores what it returns: a grid that is [None], a number or a list (an
    empty or non-numeric list included) is stored as given; a grid that is
    a string or a numpy array is handed to [eval], and the value it
    evaluates to is stored, whatever it is, or the grid itself when [eval]
    raises [TypeError].  Construction fails, at construction time, exactly
    when [eval] of a string or numpy-array grid raises an error other than
    [TypeError]. *)
Theorem init_does_not_validate_grid :
  forall policy_network cfg b_dup lf lf_c net width opt,
    load_betas (cfg_betas_for_duplication cfg) = Ok b_dup ->
    loss_function_factory (cfg_loss_function cfg) = Ok lf ->
    loss_function_factory (cfg_loss_function_c cfg) = Ok lf_c ->
    to_device policy_network (device cfg) = Ok net ->
    out_features net = Ok width ->
    optimizer_factory (optimizer_type cfg) (net_reset net)
      (learning_rate cfg) (weight_decay cfg) = Ok opt ->
    (forall grid,
        load_betas (cfg_betas_for_discretisation cfg) = Ok grid ->
        exists self,
          __init__ policy_network cfg = Ok self /\
          betas_for_discretisation self = grid /\ epoch self = 0%nat) /\
    (forall e,
        load_betas (cfg_betas_for_discretisation cfg) = Raise e ->
        __init__ policy_network cfg = Raise e) /\
    ((forall s, cfg_betas_for_discretisation cfg <> PyStr s) ->
     (forall a, cfg_betas_for_discretisation cfg <> PyArray a) ->
     load_betas (cfg_betas_for_discretisation cfg)
     = Ok (cfg_betas_for_discretisation cfg)) /\
    (forall s,
        cfg_betas_for_discretisation cfg = PyStr s ->
        load_betas (cfg_betas_for_discretisation cfg)
        = match py_eval s with
          | Ok x => Ok x
          | Raise TypeError => Ok (PyStr s)
          | Raise e => Raise e
          end) /\
    (forall a,
        cfg_betas_for_discretisation cfg = PyArray a ->
        load_betas (cfg_betas_for_discretisation cfg)
        = match py_eval_buffer a with
          | Ok x => Ok x
          | Raise TypeError => Ok (PyArray a)
          | Raise e => Raise e
          end).
Proof.
  intros policy_network cfg b_dup lf lf_c net width opt
    Hdup Hlf Hlfc Hdev Hwidth Hopt.
  split; [| split; [| split; [| split]]].
  - intros grid Hgrid. unfold __init__.
    rewrite Hdup, Hgrid, Hlf, Hlfc, Hdev. simpl. rewrite Hwidth. simpl.
    unfold reset, reset_network, bind, modify, get, lift. simpl.
    rewrite Hopt. simpl. eexists. repeat split.
  - intros e Hgrid. unfold __init__. rewrite Hdup, Hgrid. reflexivity.
  - intros Hns Hna. rewrite load_betas_cases.
    destruct (cfg_betas_for_discretisation cfg) as [| x | s | l | a];
      try reflexivity.
    + exfalso. apply (Hns s). reflexivity.
    + exfalso. apply (Hna a). reflexivity.
  - intros s Hs. rewrite Hs. reflexivity.
  - intros a Ha. rewrite Ha. reflexivity.
Qed.

(** ** Duplication of pushed transitions *)

Lemma duplicated_beta_number : forall d beta,
  duplicated_beta (PyNum d) beta = Ok (stored_budget d beta).
Proof.
  intros d [b |]; simpl; [| reflexivity].
  unfold Qnonzero. destruct (Qeq_bool b 0); reflexivity.
Qed.

Lemma push_all_multipliers :
  forall (mk : Q -> TransitionBFTQ) beta ds self,
    mapM (fun beta_d =>
            b <- lift (duplicated_beta beta_d beta) ;; memory_push (mk b))
         (map PyNum ds) self
    = (Ok (map (fun _ => tt) ds),
       set_memory self
         (memory self ++ map (fun d => mk (stored_budget d beta)) ds)).
Proof.
  intros mk beta ds. induction ds as [| d ds IH]; intros self.
  - simpl. unfold ret. f_equal. destruct self; unfold set_memory; simpl.
    rewrite app_nil_r. reflexivity.
  - simpl. unfold bind at 1. unfold bind at 1, lift.
    rewrite duplicated_beta_number. unfold memory_push, modify.
    unfold bind. rewrite IH. unfold set_memory at 1 3. simpl.
    rewrite <- app_assoc. reflexivity.
Qed.

(** C10: when the duplication multiplier list is a non-empty list of
    numbers, a call to [push] stores exactly one transition per multiplier,
    in the order of the list; the stored budget is the raw multiplier when
    the supplied budget is absent or equal to zero, and the multiplier times
    the supplied budget when that budget is not zero. *)
Theorem push_stores_one_transition_per_multiplier :
  forall self ds state action reward next_state terminal cost beta,
    ds <> [] ->
    betas_for_duplication self = PyList (map PyNum ds) ->
    push state action reward next_state terminal cost beta self
    = (Ok tt,
       set_memory self
         (memory self ++
          map (fun d =>
                 {| state := state; action := action; reward := reward;
                    next_state := next_state; terminal := terminal;
                    cost := cost;
                    beta := match beta with
                            | None => d
                            | Some b => if Qeq_bool b 0 then d else d * b
                            end |}) ds)).
Proof.
  intros self ds st a r ns t c beta Hne Hdup.
  assert (Htruthy : truthy (PyList (map PyNum ds)) = Ok true)
    by (destruct ds; [contradiction | reflexivity]).
  unfold push, bind at 1, get. unfold bind at 1, lift at 1.
  rewrite Hdup, Htruthy. unfold bind at 1, lift at 1. cbn [py_iter].
  unfold bind at 1.
  rewrite (push_all_multipliers
             (fun b => {| state := st; action := a; reward := r;
                          next_state := ns; terminal := t; cost := c;
                          beta := b |})).
  reflexivity.
Qed.

(** ** The configuration is never written *)

Lemma keeps_config_read_only : forall (A : Type) (m : M A),
  read_only m -> keeps_config m.
Proof. intros A m Hm self. rewrite Hm. reflexivity. Qed.

Lemma keeps_config_bind : forall (A B : Type) (m : M A) (k : A -> M B),
  keeps_config m -> (forall a, keeps_config (k a)) -> keeps_config (bind m k).
Proof.
  intros A B m k Hm Hk self. unfold bind.
  specialize (Hm self). destruct (m self) as [[a | e] self1]; simpl in Hm.
  - rewrite Hk. exact Hm.
  - exact Hm.
Qed.

Lemma keeps_config_modify : forall f,
  (forall self, config (f self) = config self) -> keeps_config (modify f).
Proof. intros f Hf self. apply Hf. Qed.

Lemma keeps_config_repeatM : forall (A : Type) (n : nat) (body : M A),
  keeps_config body -> keeps_config (repeatM n body).
Proof.
  intros A n body Hb. induction n as [| n IH]; simpl.
  - apply keeps_config_read_only, read_only_ret.
  - apply keeps_config_bind; [exact Hb | intros x].
    apply keeps_config_bind; [exact IH | intros xs].
    apply keeps_config_read_only, read_only_ret.
Qed.

Lemma keeps_config_gradient_step :
  forall states_betas actions target_r target_c,
    keeps_config (_gradient_step states_betas actions target_r target_c).
Proof.
  intros sb a tr tc. unfold _gradient_step.
  apply keeps_config_bind;
    [apply keeps_config_read_only, read_only_compute_loss | intros loss].
  apply keeps_config_bind;
    [apply keeps_config_read_only, read_only_get | intros self].
  destruct (optimizer self) as [opt |].
  - apply keeps_config_bind.
    + apply keeps_config_modify. reflexivity.
    + intros u. apply keeps_config_read_only, read_only_ret.
  - apply keeps_config_read_only, read_only_raise.
Qed.

Lemma keeps_config_fit : forall states_betas actions target_r target_c,
  keeps_config (_fit states_betas actions target_r target_c).
Proof.
  intros sb a tr tc. unfold _fit.
  apply keeps_config_bind;
    [apply keeps_config_read_only, read_only_compute_loss | intros delta].
  apply keeps_config_bind;
    [apply keeps_config_read_only, read_only_get | intros self].
  apply keeps_config_bind.
  - destruct (reset_network_each_epoch (config self)).
    + apply keeps_config_modify. reflexivity.
    + apply keeps_config_read_only, read_only_ret.
  - intros u. apply keeps_config_bind.
    + apply keeps_config_repeatM, keeps_config_gradient_step.
    + intros losses. apply keeps_config_read_only, read_only_ret.
Qed.

Lemma keeps_config_zip_batch : keeps_config _zip_batch.
Proof.
  unfold _zip_batch.
  apply keeps_config_bind;
    [apply keeps_config_read_only, read_only_get | intros self].
  apply keeps_config_bind; [apply keeps_config_modify; reflexivity | intros u].
  destruct (memory self) as [| t batch].
  - apply keeps_config_read_only, read_only_raise.
  - apply keeps_config_bind;
      [apply keeps_config_read_only, read_only_lift | intros rows].
    apply keeps_config_bind;
      [apply keeps_config_read_only, read_only_lift | intros rows'].
    apply keeps_config_bind; [apply keeps_config_modify; reflexivity |].
    intros u'. apply keeps_config_read_only, read_only_ret.
Qed.

(** [_epoch] is an epoch body that leaves the configuration alone. *)
Lemma keeps_config_epoch : keeps_config _epoch.
Proof.
  unfold _epoch.
  apply keeps_config_bind; [apply keeps_config_zip_batch | intros z].
  apply keeps_config_bind;
    [apply keeps_config_read_only, read_only_compute_targets | intros t].
  apply keeps_config_fit.
Qed.

(** ** The selection of the mixtures after the first epoch *)

(** With frontiers in the place of the budget batch, building the first
    argument tuple already fails. *)
Lemma mixtures_of_hulls_raise : forall hulls tensors self mixtures,
  hulls <> [] ->
  fst (compute_all_optimal_mixtures (map ObjHull hulls) tensors self)
  <> Ok mixtures.
Proof.
  intros [| h hulls] tensors self mixtures Hne; [contradiction |].
  unfold compute_all_optimal_mixtures, bind, lift, enumerate.
  cbn [map length seq combine mapR fst snd].
  unfold mixture_arguments.
  destruct (getitem tensors 0) as [t | e]; simpl; discriminate.
Qed.

(** After the first epoch the constrained backup never returns bootstrap
    values, whatever the batch and the collaborators. *)
Lemma backup_never_returns_after_first_epoch :
  forall next_states betas terminals self next,
    epoch self <> 0%nat ->
    fst (constrained_next_values next_states betas terminals self) <> Ok next.
Proof.
  intros ns b t self next He Hv.
  rewrite backup_raises_after_first_epoch in Hv by exact He.
  discriminate Hv.
Qed.

End Properties.

(** * The class evaluated on concrete objects *)

(** C1: the call of [compute_all_optimal_mixtures] made by
    [constrained_next_values] (line 168) does not hand the Mixture Selector
    a state's frontier and stored budget.  The frontiers are passed in the
    place of the budgets and the budgets in the place of the frontiers, so
    the argument tuple built for the state takes the budget tensor as
    frontier and asks the frontier for [detach], which raises
    [AttributeError] before the selector is called; with the two arguments
    in the declared order the same call returns one mixture.  At epoch 1,
    for a batch of one non-terminal transition, the backup does not get as
    far as that call: it raises at the mask [1 - terminals] of line 158,
    and [compute_targets] raises with it. *)
Theorem constrained_backup_swaps_selector_arguments :
  getitem (map ObjTensor [1 # 2]) 0 = Ok (ObjTensor (1 # 2)) /\
  mixture_arguments (map ObjTensor [1 # 2]) 0 (ObjHull demo_hull)
  = Raise AttributeError /\
  fst (compute_all_optimal_mixtures
         (map ObjHull [demo_hull]) (map ObjTensor [1 # 2]) demo_self)
  = Raise AttributeError /\
  fst (compute_all_optimal_mixtures
         (map ObjTensor [1 # 2]) (map ObjHull [demo_hull]) demo_self)
  = Ok [ {| inf := {| hp_action := O; hp_budget := 0; qc := 0; qr := 1 |};
            sup := {| hp_action := O; hp_budget := 0; qc := 0; qr := 1 |};
            probability_sup := 0 |} ] /\
  fst (constrained_next_values [[3; 4]] [1 # 2] [false]
         (demo_object demo_config 1))
  = Raise RuntimeError /\
  fst (compute_targets [1] [5] [[3; 4]] [1 # 2] [false]
         (demo_object demo_config 1))
  = Raise RuntimeError.
Proof.
  split; [reflexivity |]. split; [reflexivity |].
  split; [vm_compute; reflexivity |]. split; [vm_compute; reflexivity |].
  split; vm_compute; reflexivity.
Qed.

(** Counterexample to C2 as stated: with the cost clamp set to the range
    from 0 to 1, the cost target of a terminal transition of cost 7 is 1. *)
Lemma clamp_changes_terminal_cost_target :
  exists target_r target_c tc,
    fst (compute_targets [1; 2] [5; 7] [[3; 4]; [5; 6]] [1; 1 # 2]
           [false; true] (demo_object demo_config_clamped 0))
    = Ok (target_r, target_c) /\
    nth_error [false; true] 1 = Some true /\
    nth_error [5; 7] 1 = Some 7 /\
    nth_error target_c 1 = Some tc /\
    ~ tc == 7.
Proof.
  eexists. eexists. eexists.
  split; [vm_compute; reflexivity |].
  split; [reflexivity |]. split; [reflexivity |].
  split; [reflexivity |].
  intros Heq. vm_compute in Heq. discriminate Heq.
Qed.

Lemma terminal_targets_have_no_bootstrap_witness :
  length [1; 2] = length [[3; 4]; [5; 6]] /\
  length [5; 7] = length [[3; 4]; [5; 6]] /\
  exists target_r target_c,
    fst (compute_targets [1; 2] [5; 7] [[3; 4]; [5; 6]] [1; 1 # 2]
           [false; true] demo_self) = Ok (target_r, target_c) /\
    exists tr tc,
      nth_error target_r 1 = Some tr /\ nth_error target_c 1 = Some tc /\
      tr == 2 /\ tc == clamp_target (config demo_self) 7.
Proof.
  split; [reflexivity |]. split; [reflexivity |].
  eexists. eexists.
  split; [vm_compute; reflexivity |].
  apply (@terminal_targets_have_no_bootstrap demo demo_self
           [1; 2] [5; 7] [[3; 4]; [5; 6]] [1; 1 # 2] [false; true]);
    reflexivity.
Defined.

(** Counterexample to C4 as stated: at epoch 0, with the cost clamp set to
    the range from 0 to 1, the cost target of a non-terminal transition of
    cost 5 is 1. *)
Lemma clamp_changes_first_epoch_cost_target :
  exists target_r target_c tc,
    epoch (demo_object demo_config_clamped 0) = 0%nat /\
    fst (compute_targets [1; 2] [5; 7] [[3; 4]; [5; 6]] [1; 1 # 2]
           [false; true] (demo_object demo_config_clamped 0))
    = Ok (target_r, target_c) /\
    nth_error [false; true] 0 = Some false /\
    nth_error [5; 7] 0 = Some 5 /\
    nth_error target_c 0 = Some tc /\
    ~ tc == 5.
Proof.
  eexists. eexists. eexists.
  split; [reflexivity |].
  split; [vm_compute; reflexivity |].
  split; [reflexivity |]. split; [reflexivity |].
  split; [reflexivity |].
  intros Heq. vm_compute in Heq. discriminate Heq.
Qed.

Lemma first_epoch_has_no_bootstrap_witness :
  epoch demo_self = 0%nat /\
  length [1; 2] = length [[3; 4]; [5; 6]] /\
  length [5; 7] = length [[3; 4]; [5; 6]] /\
  fst (constrained_next_values [[3; 4]; [5; 6]] [1; 1 # 2] [false; true]
         demo_self) = Ok (zeros 2, zeros 2) /\
  exists target_r target_c,
    fst (compute_targets [1; 2] [5; 7] [[3; 4]; [5; 6]] [1; 1 # 2]
           [false; true] demo_self) = Ok (target_r, target_c) /\
    forall i r c,
      nth_error [false; true] i = Some false ->
      nth_error [1; 2] i = Some r ->
      nth_error [5; 7] i = Some c ->
      exists tr tc,
        nth_error target_r i = Some tr /\ nth_error target_c i = Some tc /\
        tr == r /\ tc == clamp_target (config demo_self) c.
Proof.
  split; [reflexivity |]. split; [reflexivity |]. split; [reflexivity |].
  apply (@first_epoch_has_no_bootstrap demo demo_self
           [1; 2] [5; 7] [[3; 4]; [5; 6]] [1; 1 # 2] [false; true]);
    reflexivity.
Defined.

Lemma bootstrap_targets_are_never_computed_witness :
  epoch (demo_object demo_config 1) <> 0%nat /\
  nth_error [false; true] 0 = Some false /\
  compute_targets [1; 2] [5; 7] [[3; 4]; [5; 6]] [1; 1 # 2] [false; true]
    (demo_object demo_config 1)
  = (Raise RuntimeError, demo_object demo_config 1).
Proof.
  assert (He : epoch (demo_object demo_config 1) <> 0%nat) by discriminate.
  split; [exact He |]. split; [reflexivity |].
  apply (@bootstrap_targets_are_never_computed demo
           [1; 2] [5; 7] [[3; 4]; [5; 6]] [1; 1 # 2] [false; true]
           (demo_object demo_config 1) He).
Defined.

Lemma fit_returns_residual_before_update_witness :
  fst (_fit [[1; 2; 1]; [3; 4; 1 # 2]] [O; O] [1; 2] [5; 7] demo_self)
  = Ok 53 /\
  _value_network demo_self = 1 /\
  _value_network
    (snd (_fit [[1; 2; 1]; [3; 4; 1 # 2]] [O; O] [1; 2] [5; 7] demo_self))
  = 2 /\
  fst (_compute_loss [[1; 2; 1]; [3; 4; 1 # 2]] [O; O] [1; 2] [5; 7] demo_self)
  = Ok 53 /\
  exists delta z self1 targets,
    fst (_epoch demo_self) = Ok delta /\
    _zip_batch demo_self = (Ok z, self1) /\
    compute_targets (z_rewards z) (z_costs z) (z_next_states z)
      (z_betas z) (z_terminals z) self1 = (Ok targets, self1) /\
    fst (_compute_loss (z_states_betas z) (z_actions z)
           (fst targets) (snd targets) self1) = Ok delta.
Proof.
  assert (Hfit : fst (_fit [[1; 2; 1]; [3; 4; 1 # 2]] [O; O] [1; 2] [5; 7]
                        demo_self) = Ok 53)
    by (vm_compute; reflexivity).
  split; [exact Hfit |].
  split; [reflexivity |].
  split; [vm_compute; reflexivity |].
  split.
  - apply (proj1 (@fit_returns_residual_before_update demo)
             [[1; 2; 1]; [3; 4; 1 # 2]] [O; O] [1; 2] [5; 7] demo_self 53 Hfit).
  - eexists.
    assert (Hepoch : fst (_epoch demo_self) = Ok ?[delta])
      by (vm_compute; reflexivity).
    destruct (proj2 (@fit_returns_residual_before_update demo)
                demo_self _ Hepoch) as [z [self1 [targets H]]].
    exists z, self1, targets. split; [exact Hepoch | exact H].
Defined.

(** Counterexample to C7 as stated: a configuration whose budget grid is the
    empty list is accepted by the constructor, which stores the empty list;
    the grid is refused only later, when [compute_next_values] first uses
    it. *)
Lemma empty_grid_is_accepted :
  exists self,
    __init__ (collaborators := demo) 1 demo_config_empty_grid = Ok self /\
    betas_for_discretisation self = PyList [] /\
    forall q_values, fst (compute_next_values [[3; 4]] self) <> Ok q_values.
Proof.
  eexists. split; [vm_compute; reflexivity |].
  split; [reflexivity |].
  intros q_values Hq. vm_compute in Hq. discriminate Hq.
Qed.

Lemma init_does_not_validate_grid_witness :
  load_betas (collaborators := demo)
    (cfg_betas_for_duplication demo_config_empty_grid)
  = Ok (PyList [PyNum 1; PyNum (1 # 2)]) /\
  (forall s, cfg_betas_for_discretisation demo_config_empty_grid <> PyStr s) /\
  (forall a, cfg_betas_for_discretisation demo_config_empty_grid <> PyArray a) /\
  exists self,
    __init__ (collaborators := demo) 1 demo_config_empty_grid = Ok self /\
    betas_for_discretisation self = PyList [] /\ epoch self = 0%nat.
Proof.
  split; [reflexivity |].
  split; [intros s; discriminate |].
  split; [intros a; discriminate |].
  destruct (@init_does_not_validate_grid demo 1 demo_config_empty_grid
              (PyList [PyNum 1; PyNum (1 # 2)]) squared_error squared_error
              1 2%nat tt eq_refl eq_refl eq_refl eq_refl eq_refl eq_refl)
    as [Haccept [_ [Hplain _]]].
  apply Haccept. apply Hplain; [intros s | intros a]; discriminate.
Defined.

Lemma minibatch_split_is_transparent_witness :
  (0 < split_batches (config demo_self))%nat /\
  betas_for_discretisation demo_self = PyArray [0; 1] /\
  @near_split demo
    (length (state_budget_rows [[3; 4]; [5; 6]; [7; 8]] [0; 1])) 2
  = [3; 3]%nat /\
  state_budget_rows [[3; 4]; [5; 6]; [7; 8]] [0; 1]
  = [[3; 4; 0]; [3; 4; 1]; [5; 6; 0]; [5; 6; 1]; [7; 8; 0]; [7; 8; 1]] /\
  compute_next_values [[3; 4]; [5; 6]; [7; 8]] demo_self
  = (Ok (forward (_value_network demo_self)
           (state_budget_rows [[3; 4]; [5; 6]; [7; 8]] [0; 1])),
     demo_self).
Proof.
  split; [simpl; lia |]. split; [reflexivity |]. split; [reflexivity |].
  split; [reflexivity |].
  apply (@minibatch_split_is_transparent demo
           [[3; 4]; [5; 6]; [7; 8]] demo_self [0; 1]).
  - simpl. lia.
  - reflexivity.
  - reflexivity.
  - reflexivity.
  - intros net xs ys. apply map_app.
Defined.

Lemma push_stores_one_transition_per_multiplier_witness :
  [1; 1 # 2] <> [] /\
  betas_for_duplication demo_self = PyList (map PyNum [1; 1 # 2]) /\
  memory (snd (push [5; 6] 0 3 [7; 8] false 4 (Some 2) demo_self))
  = memory demo_self ++
    [ {| state := [5; 6]; action := O; reward := 3; next_state := [7; 8];
         terminal := false; cost := 4; beta := 1 * 2 |};
      {| state := [5; 6]; action := O; reward := 3; next_state := [7; 8];
         terminal := false; cost := 4; beta := (1 # 2) * 2 |} ] /\
  memory (snd (push [5; 6] 0 3 [7; 8] false 4 (Some 0) demo_self))
  = memory demo_self ++
    [ {| state := [5; 6]; action := O; reward := 3; next_state := [7; 8];
         terminal := false; cost := 4; beta := 1 |};
      {| state := [5; 6]; action := O; reward := 3; next_state := [7; 8];
         terminal := false; cost := 4; beta := 1 # 2 |} ] /\
  memory (snd (push [5; 6] 0 3 [7; 8] false 4 None demo_self))
  = memory demo_self ++
    [ {| state := [5; 6]; action := O; reward := 3; next_state := [7; 8];
         terminal := false; cost := 4; beta := 1 |};
      {| state := [5; 6]; action := O; reward := 3; next_state := [7; 8];
         terminal := false; cost := 4; beta := 1 # 2 |} ].
Proof.
  split; [discriminate |]. split; [reflexivity |].
  split; [| split].
  - rewrite (@push_stores_one_transition_per_multiplier demo demo_self
               [1; 1 # 2] [5; 6] 0%nat 3 [7; 8] false 4 (Some 2));
      [reflexivity | discriminate | reflexivity].
  - rewrite (@push_stores_one_transition_per_multiplier demo demo_self
               [1; 1 # 2] [5; 6] 0%nat 3 [7; 8] false 4 (Some 0));
      [reflexivity | discriminate | reflexivity].
  - rewrite (@push_stores_one_transition_per_multiplier demo demo_self
               [1; 1 # 2] [5; 6] 0%nat 3 [7; 8] false 4 None);
      [reflexivity | discriminate | reflexivity].
Defined.

(** * Further properties of the class *)

(** ** Clamping and mixtures *)

Lemma clamp_within : forall lo hi x, lo <= hi -> lo <= clamp lo hi x <= hi.
Proof.
  intros lo hi x Hle. unfold clamp. split.
  - apply Q.min_glb; [apply Q.le_max_r | exact Hle].
  - apply Q.le_min_r.
Qed.

Lemma clamp_inside : forall lo hi x, lo <= x <= hi -> clamp lo hi x == x.
Proof.
  intros lo hi x [Hlo Hhi]. unfold clamp.
  rewrite (Q.max_l x lo Hlo). apply Q.min_l. exact Hhi.
Qed.

Lemma clamp_all_within : forall lo hi xs,
  lo <= hi -> Forall (fun y => lo <= y <= hi) (map (clamp lo hi) xs).
Proof.
  intros lo hi xs Hle. apply Forall_forall. intros y Hy.
  apply in_map_iff in Hy as [x [<- _]]. apply clamp_within. exact Hle.
Qed.

Lemma clamp_all_inside : forall lo hi xs,
  Forall2 (fun x y => lo <= x <= hi -> y == x) xs (map (clamp lo hi) xs).
Proof.
  intros lo hi xs. induction xs as [| x xs IH]; simpl; constructor.
  - intros Hx. apply clamp_inside. exact Hx.
  - exact IH.
Qed.

(** X1: when a cost clamp range with lower bound at most the upper bound is
    configured, every cost target that [compute_targets] builds (lines 131
    to 136) lies in that range, and a cost target already in the range is
    left as it is; reward targets are never clamped. *)
Theorem clamped_cost_targets_in_range :
  forall cfg rewards costs next_rewards next_costs target_r target_c lo hi,
    bellman_targets cfg rewards costs next_rewards next_costs
    = Ok (target_r, target_c) ->
    clamp_Qc cfg = Some (lo, hi) ->
    lo <= hi ->
    Forall (fun y => lo <= y <= hi) target_c /\
    (exists raw_c,
        tensor_add costs (tensor_scale (gamma_c cfg) next_costs) = Ok raw_c /\
        Forall2 (fun raw y => lo <= raw <= hi -> y == raw) raw_c target_c) /\
    tensor_add rewards (tensor_scale (gamma cfg) next_rewards) = Ok target_r.
Proof.
  intros cfg rewards costs nr nc tr tc lo hi Hb Hc Hle.
  unfold bellman_targets in Hb.
  apply rbind_ok in Hb as [tr' [Hr Hb]].
  apply rbind_ok in Hb as [raw_c [Hraw Hb]].
  rewrite Hc in Hb. injection Hb as <- <-.
  split; [| split; [exists raw_c; split; [exact Hraw |] | exact Hr]].
  - apply clamp_all_within. exact Hle.
  - apply clamp_all_inside.
Qed.

(** X2: the expected cost that the loop of [constrained_next_values] gives a
    mixture whose probability lies between 0 and 1 lies between the
    cost-values of its two points, and its expected reward between their
    reward-values; with probability 0 both are the values of the lower
    point, with probability 1 those of the upper point. *)
Theorem mixture_expectation_between_points : forall mix,
  0 <= probability_sup mix <= 1 ->
  (qc (inf mix) <= qc (sup mix) ->
   qc (inf mix) <= mixture_cost mix <= qc (sup mix)) /\
  (qr (inf mix) <= qr (sup mix) ->
   qr (inf mix) <= mixture_reward mix <= qr (sup mix)) /\
  (probability_sup mix == 0 ->
   mixture_cost mix == qc (inf mix) /\ mixture_reward mix == qr (inf mix)) /\
  (probability_sup mix == 1 ->
   mixture_cost mix == qc (sup mix) /\ mixture_reward mix == qr (sup mix)).
Proof.
  intros [[ai bi ci ri] [asup bsup cs rs] p] [Hp0 Hp1].
  unfold mixture_cost, mixture_reward. simpl in *.
  repeat split; try nra; try (rewrite H; ring).
Qed.

(** ** Mapping a fallible function *)

Lemma mapR_ok : forall (A B : Type) (f : A -> result B) l ys,
  mapR f l = Ok ys ->
  length ys = length l /\
  forall i x, nth_error l i = Some x ->
              exists y, f x = Ok y /\ nth_error ys i = Some y.
Proof.
  intros A B f l. induction l as [| x l IH]; intros ys Hm; simpl in Hm.
  - injection Hm as <-. split; [reflexivity |].
    intros [| i] x Hx; discriminate.
  - apply rbind_ok in Hm as [y [Hy Hm]].
    apply rbind_ok in Hm as [ys' [Hys Hm]]. injection Hm as <-.
    destruct (IH ys' Hys) as [Hlen Hnth]. split; [simpl; lia |].
    intros [| i] x' Hx'; simpl in Hx'.
    + injection Hx' as <-. exists y. auto.
    + apply Hnth. exact Hx'.
Qed.

(** ** Argument tuples of the mixture selector *)

Lemma mixture_arguments_from : forall betas pre rest,
  mapR (fun ib => mixture_arguments (map ObjHull (pre ++ rest))
                    (fst ib) (snd ib))
       (combine (seq (length pre) (length betas)) (map ObjTensor betas))
  = if Nat.leb (length betas) (length rest)
    then Ok (combine (map ObjHull rest) betas)
    else Raise IndexError.
Proof.
  intros betas. induction betas as [| b betas IH]; intros pre rest.
  - simpl. destruct rest; reflexivity.
  - cbn [length seq map combine mapR fst snd]. unfold mixture_arguments at 1.
    unfold getitem. rewrite nth_error_map, nth_error_app2 by lia.
    rewrite Nat.sub_diag.
    destruct rest as [| h rest]; [reflexivity |].
    cbn [nth_error option_map rbind detach_item].
    specialize (IH (pre ++ [h]) rest).
    rewrite length_app, Nat.add_1_r, <- app_assoc in IH. simpl in IH.
    rewrite IH. cbn [length Nat.leb map combine].
    destruct (Nat.leb (length betas) (length rest)); reflexivity.
Qed.

Lemma mapR_selector_on_hulls :
  forall (select : pyobj -> Q -> result Mixture) hulls betas,
    mapR (fun hb => select (fst hb) (snd hb))
         (combine (map ObjHull hulls) betas)
    = mapR (fun hb => select (ObjHull (fst hb)) (snd hb))
           (combine hulls betas).
Proof.
  intros select hulls. induction hulls as [| h hulls IH]; intros [| b betas];
    simpl; try reflexivity.
  rewrite IH. reflexivity.
Qed.

(** ** The layout of the evaluated batch *)

Lemma length_concat_repeat : forall (A : Type) (l : list A) k,
  length (concat (repeat l k)) = (k * length l)%nat.
Proof.
  intros A l k. induction k as [| k IH]; simpl.
  - reflexivity.
  - rewrite length_app, IH. reflexivity.
Qed.

Lemma length_cat_columns : forall ss bb,
  length (cat_columns ss bb) = Nat.min (length ss) (length bb).
Proof.
  intros ss. induction ss as [| s ss IH]; intros [| b bb]; simpl;
    try reflexivity.
  rewrite IH. reflexivity.
Qed.

Lemma length_repeated_states : forall (ns : list (list Q)) k,
  length (flat_map (fun s => repeat s k) ns) = (length ns * k)%nat.
Proof.
  intros ns k. induction ns as [| s ns IH]; simpl.
  - reflexivity.
  - rewrite length_app, repeat_length, IH. reflexivity.
Qed.

Lemma nth_error_concat_repeat : forall (A : Type) (l : list A) k r,
  (r < k * length l)%nat ->
  nth_error (concat (repeat l k)) r = nth_error l (r mod length l).
Proof.
  intros A l k. induction k as [| k IH]; intros r Hr; simpl in *.
  - lia.
  - destruct (Nat.lt_ge_cases r (length l)) as [Hlt | Hge].
    + rewrite nth_error_app1 by exact Hlt.
      rewrite Nat.mod_small by exact Hlt. reflexivity.
    + rewrite nth_error_app2 by exact Hge. rewrite IH by lia.
      f_equal.
      replace r with ((r - length l) + 1 * length l)%nat at 2 by lia.
      rewrite Nat.Div0.mod_add. reflexivity.
Qed.

Lemma nth_error_cat_columns : forall ss bb r,
  nth_error (cat_columns ss bb) r
  = match nth_error ss r, nth_error bb r with
    | Some s, Some b => Some (s ++ b)
    | _, _ => None
    end.
Proof.
  intros ss. induction ss as [| s ss IH]; intros [| b bb] [| r]; simpl;
    try reflexivity.
  - destruct (nth_error ss r); reflexivity.
  - apply IH.
Qed.

(** X17: the batch that [compute_next_values] evaluates has one row per
    pair of a next state and a budget of the grid, and unless [squeeze]
    drops the state axis it is the cartesian product of the next states
    with the grid: every next state with each budget, state by state. *)
Theorem evaluated_batch_is_cartesian_product : forall next_states betas,
  length (state_budget_rows next_states betas)
  = (length next_states * length betas)%nat /\
  (squeeze_drops_state_axis next_states = false ->
   state_budget_rows next_states betas
   = cartesian_product next_states betas).
Proof.
  intros ns bb. split.
  - unfold state_budget_rows, state_rows, budget_rows.
    rewrite length_cat_columns, length_concat_repeat, length_map.
    destruct (squeeze_drops_state_axis ns).
    + rewrite length_concat_repeat. lia.
    + rewrite length_repeated_states. lia.
  - apply state_budget_rows_product.
Qed.

(** X18: for two or more next states of one component each, [squeeze]
    drops the state axis and the rows are tiled: row [r] of the evaluated
    batch holds next state [r mod n] and budget [r mod n_beta], for [n]
    next states and a grid of [n_beta] budgets. *)
Theorem evaluated_batch_is_tiled_for_scalar_states :
  forall next_states betas r s b,
    squeeze_drops_state_axis next_states = true ->
    (r < length next_states * length betas)%nat ->
    nth_error next_states (r mod length next_states) = Some s ->
    nth_error betas (r mod length betas) = Some b ->
    nth_error (state_budget_rows next_states betas) r = Some (s ++ [b]).
Proof.
  intros ns bb r s b Hs Hr Hns Hbb.
  unfold state_budget_rows, state_rows, budget_rows. rewrite Hs.
  rewrite nth_error_cat_columns.
  rewrite nth_error_concat_repeat by lia.
  rewrite nth_error_concat_repeat by (rewrite length_map; lia).
  rewrite Hns, length_map, nth_error_map, Hbb. reflexivity.
Qed.

Section Coverage.

Context {collaborators : Collaborators}.

Notation "x <- m ;; k" := (bind m (fun x => k))
  (at level 61, m at next level, right associativity).
Notation "m ;;; k" := (bind m (fun _ => k))
  (at level 61, right associativity).

(** ** Gradient steps *)

(** X3: a gradient step that returns has given the optimizer gradients
    whose every entry lies between -1 and 1 (an entry of the raw gradient
    already in that range is passed on as it is), has replaced the network
    and the optimizer by what the optimizer step returns for them, and
    returns the loss computed before the step. *)
Theorem gradient_step_clips_gradients :
  forall states_betas actions target_r target_c self loss self',
    _gradient_step states_betas actions target_r target_c self
    = (Ok loss, self') ->
    exists opt grads,
      optimizer self = Some opt /\
      fst (_compute_loss states_betas actions target_r target_c self)
      = Ok loss /\
      grads = backward
                (fun net =>
                   fst (_compute_loss states_betas actions target_r target_c
                          (set_value_network self net)))
                (_value_network self) /\
      Forall (fun g => - (1) <= g <= 1) (map (clamp (- (1)) 1) grads) /\
      Forall2 (fun g c => - (1) <= g <= 1 -> c == g)
        grads (map (clamp (- (1)) 1) grads) /\
      self' = set_optimizer
                (set_value_network self
                   (snd (optimizer_step opt (_value_network self)
                           (map (clamp (- (1)) 1) grads))))
                (Some (fst (optimizer_step opt (_value_network self)
                              (map (clamp (- (1)) 1) grads)))).
Proof.
  intros sb a tr tc self loss self' Hstep. unfold _gradient_step in Hstep.
  apply bind_ok in Hstep as [loss0 [self1 [Hloss Hstep]]].
  pose proof (read_only_compute_loss sb a tr tc self) as Hframe.
  rewrite Hloss in Hframe. simpl in Hframe. subst self1.
  unfold bind at 1, get in Hstep.
  destruct (optimizer self) as [opt |] eqn:Hopt; [| discriminate Hstep].
  unfold bind, modify, ret in Hstep. injection Hstep as <- <-.
  exists opt. eexists. split; [reflexivity |].
  split; [rewrite Hloss; reflexivity |]. split; [reflexivity |].
  split; [| split; [| reflexivity]].
  - apply clamp_all_within. discriminate.
  - apply clamp_all_inside.
Qed.

(** ** Empty memory *)

(** X4: with no stored transition an epoch raises [TypeError] right after
    recording a batch size of 0, without touching the network or the
    optimizer, and [run()] with at least one epoch to run raises the same
    error in its first epoch. *)
Theorem fitting_on_empty_memory_raises : forall self,
  memory self = [] ->
  _epoch self = (Raise TypeError, set_size_batch self 0) /\
  ((0 < max_ftq_epochs (config self))%nat ->
   run self = (Raise TypeError, set_size_batch (set_epoch self 0) 0)).
Proof.
  intros self Hmem.
  assert (Hepoch : forall s, memory s = [] ->
                     _epoch s = (Raise TypeError, set_size_batch s 0)).
  { intros s Hs. unfold _epoch, bind at 1, _zip_batch, bind at 1, get.
    unfold bind at 1, modify. rewrite Hs. reflexivity. }
  split; [apply Hepoch; exact Hmem |].
  intros Hmax. unfold run, run_with, bind at 1, get.
  destruct (max_ftq_epochs (config self)) as [| n]; [lia |].
  cbn [seq run_loop]. unfold bind at 1. unfold bind at 1, modify.
  unfold bind at 1. rewrite Hepoch by exact Hmem. reflexivity.
Qed.

(** ** What fitting leaves alone *)

Lemma keeps_read_only : forall (A B : Type) (view : BudgetedFittedQ -> B)
  (m : M A), read_only m -> keeps view m.
Proof. intros A B view m Hm self. rewrite Hm. reflexivity. Qed.

Lemma keeps_bind : forall (A B C : Type) (view : BudgetedFittedQ -> C)
  (m : M A) (k : A -> M B),
  keeps view m -> (forall a, keeps view (k a)) -> keeps view (bind m k).
Proof.
  intros A B C view m k Hm Hk self. unfold bind.
  specialize (Hm self). destruct (m self) as [[a | e] self1]; simpl in Hm.
  - rewrite Hk. exact Hm.
  - exact Hm.
Qed.

Lemma keeps_modify : forall (B : Type) (view : BudgetedFittedQ -> B) f,
  (forall self, view (f self) = view self) -> keeps view (modify f).
Proof. intros B view f Hf self. apply Hf. Qed.

Lemma keeps_repeatM : forall (A B : Type) (view : BudgetedFittedQ -> B)
  (n : nat) (body : M A), keeps view body -> keeps view (repeatM n body).
Proof.
  intros A B view n body Hb. induction n as [| n IH]; simpl.
  - apply keeps_read_only, read_only_ret.
  - apply keeps_bind; [exact Hb | intros x].
    apply keeps_bind; [exact IH | intros xs].
    apply keeps_read_only, read_only_ret.
Qed.

Section Views.

Variable B : Type.
Variable view : BudgetedFittedQ -> B.

Hypothesis view_network : forall self net,
  view (set_value_network self net) = view self.
Hypothesis view_optimizer : forall self o,
  view (set_optimizer self o) = view self.
Hypothesis view_size_batch : forall self n,
  view (set_size_batch self n) = view self.

Lemma keeps_gradient_step : forall states_betas actions target_r target_c,
  keeps view (_gradient_step states_betas actions target_r target_c).
Proof.
  intros sb a tr tc. unfold _gradient_step.
  apply keeps_bind;
    [apply keeps_read_only, read_only_compute_loss | intros loss].
  apply keeps_bind; [apply keeps_read_only, read_only_get | intros self].
  destruct (optimizer self) as [opt |].
  - apply keeps_bind.
    + apply keeps_modify. intros s. rewrite view_optimizer. apply view_network.
    + intros u. apply keeps_read_only, read_only_ret.
  - apply keeps_read_only, read_only_raise.
Qed.

Lemma keeps_fit : forall states_betas actions target_r target_c,
  keeps view (_fit states_betas actions target_r target_c).
Proof.
  intros sb a tr tc. unfold _fit.
  apply keeps_bind;
    [apply keeps_read_only, read_only_compute_loss | intros delta].
  apply keeps_bind; [apply keeps_read_only, read_only_get | intros self].
  apply keeps_bind.
  - destruct (reset_network_each_epoch (config self)).
    + apply keeps_modify. intros s. apply view_network.
    + apply keeps_read_only, read_only_ret.
  - intros u. apply keeps_bind.
    + apply keeps_repeatM, keeps_gradient_step.
    + intros losses. apply keeps_read_only, read_only_ret.
Qed.

Lemma keeps_zip_batch : keeps view _zip_batch.
Proof.
  unfold _zip_batch.
  apply keeps_bind; [apply keeps_read_only, read_only_get | intros self].
  apply keeps_bind;
    [apply keeps_modify; intros s; apply view_size_batch | intros u].
  destruct (memory self) as [| t batch].
  - apply keeps_read_only, read_only_raise.
  - apply keeps_bind; [apply keeps_read_only, read_only_lift | intros rows].
    apply keeps_bind; [apply keeps_read_only, read_only_lift | intros rows'].
    apply keeps_bind;
      [apply keeps_modify; intros s; apply view_network | intros u'].
    apply keeps_read_only, read_only_ret.
Qed.

Lemma keeps_epoch : keeps view _epoch.
Proof.
  unfold _epoch.
  apply keeps_bind; [apply keeps_zip_batch | intros z].
  apply keeps_bind;
    [apply keeps_read_only, read_only_compute_targets | intros t].
  apply keeps_fit.
Qed.

Hypothesis view_epoch : forall self e, view (set_epoch self e) = view self.



End Views.


(** ** The epoch index *)

Lemma run_loop_last_epoch : forall epochs self,
  epochs <> [] ->
  In (epoch (snd (run_loop _epoch epochs self))) epochs.
Proof.
  intros epochs. induction epochs as [| e rest IH]; intros self Hne;
    [contradiction |].
  cbn [run_loop]. unfold bind at 1, modify. unfold bind at 1.
  pose proof (@keeps_epoch _ epoch
                ltac:(reflexivity) ltac:(reflexivity) ltac:(reflexivity)
                (set_epoch self e)) as Hkeep.
  destruct (_epoch (set_epoch self e)) as [[delta | err] self1];
    simpl in Hkeep; [| left; symmetry; exact Hkeep].
  unfold bind at 1, get.
  destruct (Qlt_le_dec delta (delta_stop (config self1))).
  - left. symmetry. exact Hkeep.
  - unfold bind. destruct rest as [| e' rest'].
    + left. symmetry. exact Hkeep.
    + specialize (IH self1 ltac:(discriminate)).
      destruct (run_loop _epoch (e' :: rest') self1) as [[deltas | err] self2];
        right; exact IH.
Qed.

(** X15: after [run()] with at least one epoch to run, returned or raised,
    the epoch attribute is below the configured maximum number of epochs;
    with a maximum of 0 no epoch is started and [run()] returns the network
    with the object untouched. *)
Theorem run_leaves_last_epoch_index : forall self,
  ((0 < max_ftq_epochs (config self))%nat ->
   (epoch (snd (run self)) < max_ftq_epochs (config self))%nat) /\
  (max_ftq_epochs (config self) = 0%nat ->
   run self = (Ok (_value_network self), self)).
Proof.
  intros self. split.
  - intros Hmax.
    pose proof (@run_loop_last_epoch
                  (seq 0 (max_ftq_epochs (config self))) self) as Hin.
    assert (Hseq : seq 0 (max_ftq_epochs (config self)) <> []).
    { destruct (max_ftq_epochs (config self)); [lia | discriminate]. }
    specialize (Hin Hseq).
    unfold run, run_with, bind, get.
    destruct (run_loop _epoch (seq 0 (max_ftq_epochs (config self))) self)
      as [[deltas | err] self']; simpl in *;
      apply in_seq in Hin; lia.
  - intros Hzero. unfold run, run_with, bind, get. rewrite Hzero. reflexivity.
Qed.

(** ** Hulls and mixtures *)

(** X9: when [compute_all_hulls] returns, there is at least one state, it
    returns one hull per state, in the order of the states, and the hull of
    state [i] is the first component of what the hull builder returns for
    rows [i * n_beta] to [(i + 1) * n_beta] of the Q-values; for zero
    states it raises [ValueError]. *)
Theorem compute_all_hulls_one_per_state :
  forall q_values states_count self,
    (forall hulls self',
        compute_all_hulls q_values states_count self = (Ok hulls, self') ->
        self' = self /\ (0 < states_count)%nat /\
        length hulls = states_count /\
        exists n_beta,
          py_len (betas_for_discretisation self) = Ok n_beta /\
          forall state, (state < states_count)%nat ->
            exists built,
              compute_convex_hull_from_values
                (slice (state * n_beta) ((state + 1) * n_beta) q_values)
                (betas_for_discretisation self)
                (hull_options (config self)) (clamp_Qc (config self))
              = Ok built /\
              nth_error hulls state = Some (fst (fst (fst built)))) /\
    (states_count = 0%nat ->
     forall n_beta,
       py_len (betas_for_discretisation self) = Ok n_beta ->
       compute_all_hulls q_values states_count self = (Raise ValueError, self)).
Proof.
  intros q n self. split.
  - intros hulls self' Hh.
    pose proof (read_only_compute_all_hulls q n self) as Hframe.
    rewrite Hh in Hframe. simpl in Hframe. subst self'.
    unfold compute_all_hulls in Hh.
    apply bind_ok in Hh as [s0 [s1 [Hget Hh]]].
    unfold get in Hget. injection Hget as <- <-.
    apply bind_ok in Hh as [n_beta [s2 [Hlen Hh]]].
    unfold lift in Hlen. injection Hlen as Hlen <-.
    apply bind_ok in Hh as [results [s3 [Hres Hh]]].
    unfold lift in Hres, Hh. injection Hres as Hres <-.
    injection Hh as Hu.
    apply mapR_ok in Hres as [Hrl Hnth].
    rewrite length_map, length_seq in Hrl.
    destruct results as [| r results]; [discriminate Hu |].
    cbn [unzip_hulls] in Hu. injection Hu as <-.
    change (fst (fst (fst r))
            :: map (fun r0 : hull * pyval * pyval * pyval =>
                      fst (fst (fst r0))) results)
      with (map (fun r0 : hull * pyval * pyval * pyval =>
                   fst (fst (fst r0))) (r :: results)).
    split; [reflexivity |]. split; [simpl in Hrl; lia |].
    split; [rewrite length_map; exact Hrl |].
    exists n_beta. split; [exact Hlen |].
    intros state Hstate.
    destruct (Hnth state
                (slice (state * n_beta) ((state + 1) * n_beta) q))
      as [built [Hbuilt Hat]].
    { rewrite nth_error_map, nth_error_seq.
      apply Nat.ltb_lt in Hstate. rewrite Hstate. reflexivity. }
    exists built. split; [exact Hbuilt |].
    rewrite nth_error_map, Hat. reflexivity.
  - intros -> n_beta Hlen. unfold compute_all_hulls, bind, get, lift.
    rewrite Hlen. reflexivity.
Qed.

(** X12: with the budgets first and the hulls second, as its parameters are
    declared, [compute_all_optimal_mixtures] returns what the mixture
    selector returns for each state's hull and budget, state by state (the
    first error of the selector if it raises), provided there is a hull for
    every budget; with fewer hulls than budgets it raises [IndexError]
    without calling the selector. *)
Theorem mixtures_in_declared_order : forall betas hulls self,
  ((length betas <= length hulls)%nat ->
   compute_all_optimal_mixtures (map ObjTensor betas) (map ObjHull hulls) self
   = (mapR (fun hb => optimal_mixture (ObjHull (fst hb)) (snd hb))
           (combine hulls betas),
      self)) /\
  ((length hulls < length betas)%nat ->
   compute_all_optimal_mixtures (map ObjTensor betas) (map ObjHull hulls) self
   = (Raise IndexError, self)).
Proof.
  intros betas hulls self.
  pose proof (mixture_arguments_from betas [] hulls) as Hargs.
  cbn [length app] in Hargs.
  unfold compute_all_optimal_mixtures, bind, lift, enumerate.
  rewrite length_map, Hargs. split; intros Hlen.
  - apply Nat.leb_le in Hlen. rewrite Hlen.
    rewrite mapR_selector_on_hulls. reflexivity.
  - apply Nat.leb_gt in Hlen. rewrite Hlen. reflexivity.
Qed.

(** ** Later epochs *)

Lemma epoch_never_returns_after_first : forall self delta,
  epoch self <> 0%nat -> fst (_epoch self) <> Ok delta.
Proof.
  intros self delta He Hd. unfold _epoch in Hd.
  apply fst_bind_ok in Hd as [z [self1 [Hz Hd]]].
  pose proof (@keeps_zip_batch _ epoch ltac:(reflexivity) ltac:(reflexivity)
                self) as Hkeep.
  rewrite Hz in Hkeep. simpl in Hkeep.
  apply fst_bind_ok in Hd as [targets [self2 [Ht _]]].
  unfold compute_targets in Ht.
  apply bind_ok in Ht as [next [self3 [Hnext _]]].
  apply (@backup_never_returns_after_first_epoch _ (z_next_states z)
           (z_betas z) (z_terminals z) self1 next).
  - rewrite Hkeep. exact He.
  - rewrite Hnext. reflexivity.
Qed.

(** X13: [run()] never completes a second epoch: when it returns, either
    the maximum number of epochs is 0, or exactly one epoch was executed
    and its residual was below the threshold or the maximum is 1. *)
Theorem run_returns_within_first_epoch : forall self net,
  fst (run self) = Ok net ->
  max_ftq_epochs (config self) = 0%nat \/
  exists delta,
    fst (run_loop _epoch (seq 0 (max_ftq_epochs (config self))) self)
    = Ok [delta] /\
    (delta < delta_stop (config self) \/
     max_ftq_epochs (config self) = 1%nat).
Proof.
  intros self net Hrun. unfold run, run_with in Hrun.
  apply fst_bind_ok in Hrun as [s0 [s1 [Hget Hrun]]].
  unfold get in Hget. injection Hget as <- <-.
  apply fst_bind_ok in Hrun as [deltas [self' [Hloop _]]].
  destruct (max_ftq_epochs (config self)) as [| n]; [left; reflexivity |].
  right. cbn [seq run_loop] in Hloop |- *.
  apply bind_ok in Hloop as [u [s1 [Hmod Hloop]]].
  unfold modify in Hmod. injection Hmod as _ <-.
  unfold bind at 1, modify.
  pose proof (keeps_config_epoch (set_epoch self 0)) as Hcfg.
  apply bind_ok in Hloop as [delta [s2 [Hepoch Hloop]]].
  unfold bind at 1. rewrite Hepoch in Hcfg |- *. simpl in Hcfg.
  unfold bind at 1, get in Hloop. unfold bind at 1, get.
  rewrite Hcfg in *.
  destruct (Qlt_le_dec delta (delta_stop (config self))) as [Hlt | Hle].
  - exists delta. split; [reflexivity | left; exact Hlt].
  - apply bind_ok in Hloop as [ds [s3 [Hrest _]]].
    destruct n as [| n].
    + exists delta. split; [| right; reflexivity].
      simpl in Hrest. unfold ret in Hrest. injection Hrest as <- <-.
      reflexivity.
    + exfalso. cbn [seq run_loop] in Hrest.
      apply bind_ok in Hrest as [u' [s4 [Hmod Hrest]]].
      unfold modify in Hmod. injection Hmod as _ <-.
      apply bind_ok in Hrest as [delta' [s5 [Hepoch' _]]].
      apply (@epoch_never_returns_after_first (set_epoch s2 1) delta').
      * simpl. discriminate.
      * rewrite Hepoch'. reflexivity.
Qed.

(** ** The second epoch *)

(** The gathered batch is a function of the stored transitions. *)
Lemma zip_batch_again : forall self self' z self1,
  _zip_batch self = (Ok z, self1) ->
  memory self' = memory self ->
  exists self1', _zip_batch self' = (Ok z, self1') /\ epoch self1' = epoch self'.
Proof.
  intros self self' z self1 Hz Hm.
  unfold _zip_batch, bind at 1, get in Hz. unfold bind at 1, modify in Hz.
  unfold _zip_batch, bind at 1, get. unfold bind at 1, modify.
  rewrite Hm. destruct (memory self) as [| t batch]; [discriminate Hz |].
  unfold bind, lift in Hz |- *.
  destruct (cat_rows (map state (t :: batch))) as [rows | e];
    [| discriminate Hz].
  destruct (cat_rows (map next_state (t :: batch))) as [rows' | e];
    [| discriminate Hz].
  unfold ret in Hz |- *. injection Hz as <- _.
  eexists. split; reflexivity.
Qed.

(** C5: [run()] does not run the configured number of epochs when no
    residual falls below the threshold, and then returns no approximator:
    with a maximum of two or more epochs and a first epoch whose residual
    is not below the threshold, the second epoch raises in its backup, at
    the mask [1 - terminals] of line 158, and [run()] raises with it,
    leaving the epoch index at 1. *)
Theorem run_raises_in_second_epoch : forall self delta self1,
  (2 <= max_ftq_epochs (config self))%nat ->
  _epoch (set_epoch self 0) = (Ok delta, self1) ->
  delta_stop (config self) <= delta ->
  (exists self',
      run self = (Raise RuntimeError, self') /\ epoch self' = 1%nat) /\
  forall net, fst (run self) <> Ok net.
Proof.
  intros self delta self1 Hmax Hepoch Hle.
  assert (Hrun : exists self',
             run self = (Raise RuntimeError, self') /\ epoch self' = 1%nat).
  { pose proof (keeps_config_epoch (set_epoch self 0)) as Hcfg.
    pose proof (@keeps_epoch _ (@memory _)
                  ltac:(reflexivity) ltac:(reflexivity) ltac:(reflexivity)
                  (set_epoch self 0)) as Hmem.
    rewrite Hepoch in Hcfg, Hmem. simpl in Hcfg, Hmem.
    assert (Hzip : exists z sz, _zip_batch (set_epoch self 0) = (Ok z, sz)).
    { unfold _epoch in Hepoch.
      apply bind_ok in Hepoch as [z [sz [Hz _]]]. exists z, sz. exact Hz. }
    destruct Hzip as [z [sz Hzip]].
    destruct (@zip_batch_again (set_epoch self 0) (set_epoch self1 1) z sz
                Hzip Hmem) as [s1 [Hzip1 He1]].
    simpl in He1.
    assert (Hsecond : _epoch (set_epoch self1 1) = (Raise RuntimeError, s1)).
    { unfold _epoch, bind at 1. rewrite Hzip1. unfold bind at 1.
      rewrite targets_raise_after_first_epoch
        by (rewrite He1; discriminate).
      reflexivity. }
    exists s1. split; [| exact He1].
    unfold run, run_with, bind at 1, get.
    destruct (max_ftq_epochs (config self)) as [| [| n]]; try lia.
    cbn [seq run_loop]. unfold bind at 1. unfold bind at 1, modify.
    unfold bind at 1. rewrite Hepoch. unfold bind at 1, get.
    rewrite Hcfg.
    destruct (Qlt_le_dec delta (delta_stop (config self))) as [Hlt | _].
    - exfalso. apply (Qlt_irrefl delta).
      apply Qlt_le_trans with (delta_stop (config self)); assumption.
    - unfold bind at 1. unfold bind at 1. unfold bind at 1, modify.
      unfold bind at 1. rewrite Hsecond. reflexivity. }
  split; [exact Hrun |].
  destruct Hrun as [self' [Hrun _]]. intros net Hnet.
  rewrite Hrun in Hnet. discriminate Hnet.
Qed.

(** ** The first epoch *)

Lemma gather_returns : forall index values,
  (length index <= length values)%nat ->
  (forall i a row,
      nth_error index i = Some a -> nth_error values i = Some row ->
      (a < length row)%nat) ->
  exists q, gather values index = Ok q.
Proof.
  intros index. induction index as [| a index IH]; intros values Hlen Hin.
  - exists []. destruct values; reflexivity.
  - destruct values as [| row values]; [simpl in Hlen; lia |].
    simpl.
    pose proof (Hin 0%nat a row eq_refl eq_refl) as Ha.
    destruct (nth_error row a) as [v |] eqn:Hv;
      [| apply nth_error_None in Hv; lia].
    destruct (IH values) as [q Hq].
    + simpl in Hlen. lia.
    + intros i a' row' Hi Hr. apply (Hin (S i) a' row'); assumption.
    + exists (v :: q). simpl. rewrite Hq. reflexivity.
Qed.

Section WellShaped.

(** The network returns one row per input row, of at least two entries per
    action, and every action of the batch is an action of the network. *)
Variable n : nat.
Variable states_betas : list (list Q).
Variable actions : list nat.

Hypothesis forward_rows : forall net rows,
  length (forward net rows) = length rows /\
  Forall (fun row => (n + n <= length row)%nat) (forward net rows).
Hypothesis actions_length : length actions = length states_betas.
Hypothesis actions_range : Forall (fun a => (a < n)%nat) actions.

Lemma compute_loss_returns : forall target_r target_c self,
  n_actions self = n ->
  exists loss,
    _compute_loss states_betas actions target_r target_c self = (Ok loss, self).
Proof.
  intros tr tc self Hn. unfold _compute_loss, bind, get, lift.
  destruct (forward_rows (_value_network self) states_betas) as [Hlen Hrows].
  rewrite Forall_forall in Hrows.
  pose proof (proj1 (Forall_forall _ _) actions_range) as Hact.
  destruct (gather_returns actions (forward (_value_network self) states_betas))
    as [q_r Hq_r].
  { rewrite Hlen, actions_length. lia. }
  { intros i a row Hi Hr. apply nth_error_In in Hi, Hr.
    specialize (Hact a Hi). specialize (Hrows row Hr). simpl in *. lia. }
  destruct (gather_returns (map (fun a => (a + n_actions self)%nat) actions)
              (forward (_value_network self) states_betas)) as [q_c Hq_c].
  { rewrite length_map, Hlen, actions_length. lia. }
  { intros i a row Hi Hr. apply nth_error_In in Hi, Hr.
    apply in_map_iff in Hi as [a0 [<- Ha0]].
    specialize (Hact a0 Ha0). specialize (Hrows row Hr). simpl in *. lia. }
  rewrite Hq_r, Hq_c. eexists. reflexivity.
Qed.

Lemma gradient_step_returns : forall target_r target_c self,
  n_actions self = n /\ optimizer self <> None ->
  exists loss self',
    _gradient_step states_betas actions target_r target_c self
    = (Ok loss, self') /\
    (n_actions self' = n /\ optimizer self' <> None).
Proof.
  intros tr tc self [Hn Hopt]. unfold _gradient_step.
  destruct (@compute_loss_returns tr tc self Hn) as [loss Hloss].
  unfold bind at 1. rewrite Hloss. unfold bind at 1, get.
  destruct (optimizer self) as [opt |]; [| contradiction].
  unfold bind, modify, ret. do 2 eexists. split; [reflexivity |].
  split; [exact Hn | discriminate].
Qed.

Lemma gradient_steps_return : forall target_r target_c k self,
  n_actions self = n /\ optimizer self <> None ->
  exists losses self',
    repeatM k (_gradient_step states_betas actions target_r target_c) self
    = (Ok losses, self').
Proof.
  intros tr tc k. induction k as [| k IH]; intros self Hready; simpl.
  - do 2 eexists. reflexivity.
  - destruct (@gradient_step_returns tr tc self Hready)
      as [loss [self1 [Hstep Hready1]]].
    destruct (IH self1 Hready1) as [losses [self2 Hrest]].
    unfold bind. rewrite Hstep, Hrest. do 2 eexists. reflexivity.
Qed.

Lemma fit_returns : forall target_r target_c self,
  n_actions self = n /\ optimizer self <> None ->
  exists delta self',
    _fit states_betas actions target_r target_c self = (Ok delta, self').
Proof.
  intros tr tc self Hready. unfold _fit.
  destruct (@compute_loss_returns tr tc self (proj1 Hready))
    as [delta Hloss].
  unfold bind at 1. rewrite Hloss. unfold bind at 1, get. unfold bind at 1.
  assert (Hreset : exists self1,
             (if reset_network_each_epoch (config self)
              then reset_network else ret tt) self = (Ok tt, self1) /\
             (n_actions self1 = n /\ optimizer self1 <> None)).
  { destruct (reset_network_each_epoch (config self)); eexists;
      (split; [reflexivity | exact Hready]). }
  destruct Hreset as [self1 [Hreset Hready1]]. rewrite Hreset.
  destruct (@gradient_steps_return tr tc (max_nn_epoch (config self))
              self1 Hready1) as [losses [self2 Hsteps]].
  unfold bind. rewrite Hsteps. do 2 eexists. reflexivity.
Qed.

End WellShaped.

(** X5: the first epoch (epoch index 0) runs to completion and returns a
    residual whenever there is at least one stored transition, the stored
    states have one length and so have the stored next states, the
    optimizer is set, every stored action is below the number of actions
    and the network returns, for every batch, one row per input row with at
    least two entries per action; it records the number of stored
    transitions as batch size. *)
Theorem first_epoch_returns : forall self,
  epoch self = 0%nat ->
  memory self <> [] ->
  same_width (map state (memory self)) = true ->
  same_width (map next_state (memory self)) = true ->
  optimizer self <> None ->
  Forall (fun t => (action t < n_actions self)%nat) (memory self) ->
  (forall net rows,
      length (forward net rows) = length rows /\
      Forall (fun row => (n_actions self + n_actions self <= length row)%nat)
        (forward net rows)) ->
  exists delta self',
    _epoch self = (Ok delta, self') /\
    size_batch self' = length (memory self).
Proof.
  intros self He Hmem Hstates Hnext Hopt Hact Hrows.
  destruct (memory self) as [| t batch] eqn:Hm; [contradiction |].
  assert (Hzip : exists z self1,
             _zip_batch self = (Ok z, self1) /\
             epoch self1 = 0%nat /\ config self1 = config self /\
             n_actions self1 = n_actions self /\
             optimizer self1 = optimizer self /\
             size_batch self1 = length (t :: batch) /\
             z_states_betas z = map (fun t => state t ++ [beta t]) (t :: batch) /\
             z_actions z = map action (t :: batch) /\
             z_rewards z = map reward (t :: batch) /\
             z_costs z = map cost (t :: batch) /\
             z_next_states z = map next_state (t :: batch)).
  { unfold _zip_batch, bind at 1, get. unfold bind at 1, modify.
    rewrite Hm. unfold bind, lift, cat_rows. rewrite Hstates, Hnext.
    unfold ret. do 2 eexists.
    split; [reflexivity |]. simpl. repeat split; try assumption. }
  destruct Hzip as [z [self1 [Hzip [He1 [Hc1 [Hn1 [Ho1 [Hs1
                      [Hzsb [Hza [Hzr [Hzc Hzn]]]]]]]]]]]].
  destruct (bellman_targets_nth (config self1) (z_rewards z) (z_costs z)
              (zeros (length (z_next_states z)))
              (zeros (length (z_next_states z))))
    as [target_r [target_c [Hb _]]].
  { rewrite length_zeros, Hzr, Hzn, !length_map. reflexivity. }
  { rewrite length_zeros, Hzc, Hzn, !length_map. reflexivity. }
  assert (Htargets :
            compute_targets (z_rewards z) (z_costs z) (z_next_states z)
              (z_betas z) (z_terminals z) self1
            = (Ok (target_r, target_c), self1)).
  { unfold compute_targets, bind.
    rewrite constrained_next_values_first_epoch by exact He1.
    unfold get, lift. simpl. rewrite Hb. reflexivity. }
  assert (Hlen : length (z_actions z) = length (z_states_betas z))
    by (rewrite Hzsb, Hza, !length_map; reflexivity).
  assert (Hrange : Forall (fun a => (a < n_actions self)%nat) (z_actions z))
    by (rewrite Hza; apply Forall_map; exact Hact).
  assert (Hready : n_actions self1 = n_actions self /\ optimizer self1 <> None)
    by (split; [exact Hn1 | rewrite Ho1; exact Hopt]).
  destruct (@fit_returns (n_actions self) (z_states_betas z) (z_actions z)
              Hrows Hlen Hrange target_r target_c self1 Hready)
    as [delta [self2 Hfit]].
  exists delta, self2. split.
  - unfold _epoch, bind. rewrite Hzip, Htargets. exact Hfit.
  - pose proof (@keeps_fit _ size_batch ltac:(reflexivity) ltac:(reflexivity)
                  (z_states_betas z) (z_actions z) target_r target_c self1)
      as Hkeep.
    rewrite Hfit in Hkeep. simpl in Hkeep. rewrite Hkeep. exact Hs1.
Qed.

(** ** [push] without duplication *)

(** X7: when the multiplier list is falsy (for instance empty or [None]),
    [push] stores exactly one transition, with the budget it is given, and
    raises [TypeError] without storing anything when no budget is given;
    when the truth value of the multiplier list cannot be taken, [push]
    raises that error without storing anything. *)
Theorem push_without_duplication :
  forall self state action reward next_state terminal cost,
    (truthy (betas_for_duplication self) = Ok false ->
     (forall b,
         push state action reward next_state terminal cost (Some b) self
         = (Ok tt,
            set_memory self
              (memory self ++
               [ {| state := state; action := action; reward := reward;
                    next_state := next_state; terminal := terminal;
                    cost := cost; beta := b |} ]))) /\
     push state action reward next_state terminal cost None self
     = (Raise TypeError, self)) /\
    (forall e beta,
        truthy (betas_for_duplication self) = Raise e ->
        push state action reward next_state terminal cost beta self
        = (Raise e, self)).
Proof.
  intros self st a r ns t c. split.
  - intros Hf. split; [intros b |];
      unfold push, bind, get, lift; rewrite Hf; reflexivity.
  - intros e beta He. unfold push, bind, get, lift. rewrite He. reflexivity.
Qed.

(** ** Actions out of range *)

Lemma gather_bad_index : forall index values,
  (exists i a row,
      nth_error index i = Some a /\ nth_error values i = Some row /\
      (length row <= a)%nat) ->
  gather values index = Raise RuntimeError.
Proof.
  intros index. induction index as [| a0 index IH];
    intros values [i [a [row [Hi [Hr Hbad]]]]].
  - destruct i; discriminate.
  - destruct values as [| row0 values]; [destruct i; discriminate |].
    simpl. destruct i as [| i]; simpl in Hi, Hr.
    + injection Hi as ->. injection Hr as ->.
      apply nth_error_None in Hbad. rewrite Hbad. reflexivity.
    + destruct (nth_error row0 a0) as [v |]; [| reflexivity].
      rewrite (IH values); [reflexivity |].
      exists i, a, row. auto.
Qed.

(** X19: when the network returns one row per input row with exactly two
    entries per action, a batch that holds an action index that is not
    below the number of actions makes the loss raise; [_fit] then raises
    the same error, before any reset or gradient step, and leaves the
    object as it was. *)
Theorem loss_rejects_action_out_of_range :
  forall states_betas actions target_r target_c self,
    length (forward (_value_network self) states_betas) = length states_betas ->
    Forall (fun row => length row = (n_actions self + n_actions self)%nat)
      (forward (_value_network self) states_betas) ->
    length actions = length states_betas ->
    Exists (fun a => (n_actions self <= a)%nat) actions ->
    exists e,
      _compute_loss states_betas actions target_r target_c self
      = (Raise e, self) /\
      _fit states_betas actions target_r target_c self
      = (Raise e, self).
Proof.
  intros sb actions tr tc self Hlen Hrows Hal Hex.
  assert (Hloss : exists e, _compute_loss sb actions tr tc self
                            = (Raise e, self)).
  { unfold _compute_loss, bind, get, lift.
    apply Exists_exists in Hex as [a [Hin Ha]].
    apply In_nth_error in Hin as [i Hi].
    assert (Hrow : exists row,
               nth_error (forward (_value_network self) sb) i = Some row).
    { destruct (nth_error (forward (_value_network self) sb) i) eqn:Hn;
        [eexists; reflexivity |].
      apply nth_error_None in Hn.
      assert (nth_error actions i <> None) by (rewrite Hi; discriminate).
      apply nth_error_Some in H. lia. }
    destruct Hrow as [row Hrow].
    assert (Hw : length row = (n_actions self + n_actions self)%nat).
    { rewrite Forall_forall in Hrows. apply Hrows.
      apply nth_error_In in Hrow. exact Hrow. }
    destruct (gather (forward (_value_network self) sb) actions)
      as [q_r | e]; [| exists e; reflexivity].
    rewrite (gather_bad_index
               (map (fun a0 => (a0 + n_actions self)%nat) actions)
               (forward (_value_network self) sb)).
    - exists RuntimeError. reflexivity.
    - exists i, (a + n_actions self)%nat, row.
      rewrite nth_error_map, Hi. repeat split; [exact Hrow | lia]. }
  destruct Hloss as [e Hloss]. exists e.
  split; [exact Hloss |].
  unfold _fit, bind. rewrite Hloss. reflexivity.
Qed.

End Coverage.

(** ** The further properties on concrete objects *)

Lemma clamped_cost_targets_in_range_witness :
  bellman_targets demo_config_clamped [1; 2] [5; 1 # 2] [0; 0] [0; 0]
  = Ok ([1 + (9 # 10) * 0; 2 + (9 # 10) * 0],
        [clamp 0 1 (5 + 1 * 0); clamp 0 1 ((1 # 2) + 1 * 0)]) /\
  clamp_Qc demo_config_clamped = Some (0, 1) /\
  0 <= 1 /\
  Forall (fun y => 0 <= y <= 1)
    [clamp 0 1 (5 + 1 * 0); clamp 0 1 ((1 # 2) + 1 * 0)].
Proof.
  split; [reflexivity |]. split; [reflexivity |].
  split; [discriminate |].
  apply (@clamped_cost_targets_in_range demo_config_clamped
           [1; 2] [5; 1 # 2] [0; 0] [0; 0]
           [1 + (9 # 10) * 0; 2 + (9 # 10) * 0]
           [clamp 0 1 (5 + 1 * 0); clamp 0 1 ((1 # 2) + 1 * 0)] 0 1);
    [reflexivity | reflexivity | discriminate].
Defined.

Lemma mixture_expectation_between_points_witness :
  0 <= probability_sup demo_mixture <= 1 /\
  qc (inf demo_mixture) <= qc (sup demo_mixture) /\
  qc (inf demo_mixture) <= mixture_cost demo_mixture <= qc (sup demo_mixture).
Proof.
  assert (Hp : 0 <= probability_sup demo_mixture <= 1)
    by (split; discriminate).
  assert (Hc : qc (inf demo_mixture) <= qc (sup demo_mixture))
    by discriminate.
  split; [exact Hp |]. split; [exact Hc |].
  apply (proj1 (@mixture_expectation_between_points demo_mixture Hp) Hc).
Defined.

Lemma gradient_step_clips_gradients_witness :
  exists loss self',
    _gradient_step [[1; 2; 1]; [3; 4; 1 # 2]] [O; O] [1; 2] [5; 7] demo_self
    = (Ok loss, self') /\
    exists opt grads,
      optimizer demo_self = Some opt /\
      Forall (fun g => - (1) <= g <= 1) (map (clamp (- (1)) 1) grads) /\
      self' = set_optimizer
                (set_value_network demo_self
                   (snd (optimizer_step opt (_value_network demo_self)
                           (map (clamp (- (1)) 1) grads))))
                (Some (fst (optimizer_step opt (_value_network demo_self)
                              (map (clamp (- (1)) 1) grads)))).
Proof.
  assert (Hstep : exists loss self',
             _gradient_step [[1; 2; 1]; [3; 4; 1 # 2]] [O; O] [1; 2] [5; 7]
               demo_self = (Ok loss, self'))
    by (do 2 eexists; vm_compute; reflexivity).
  destruct Hstep as [loss [self' Hstep]].
  exists loss, self'. split; [exact Hstep |].
  destruct (@gradient_step_clips_gradients demo _ _ _ _ _ _ _ Hstep)
    as [opt [grads [Hopt [_ [_ [Hclip [_ Hself]]]]]]].
  exists opt, grads. auto.
Defined.

Lemma fitting_on_empty_memory_raises_witness :
  memory (demo_object_with demo_config 0 (PyList []) (PyArray [0; 1]) []) = [] /\
  fst (_epoch (demo_object_with demo_config 0 (PyList []) (PyArray [0; 1]) []))
  = Raise TypeError /\
  fst (run (demo_object_with demo_config 0 (PyList []) (PyArray [0; 1]) []))
  = Raise TypeError.
Proof.
  destruct (@fitting_on_empty_memory_raises demo
              (demo_object_with demo_config 0 (PyList []) (PyArray [0; 1]) [])
              eq_refl) as [Hepoch Hrun].
  split; [reflexivity |]. split.
  - rewrite Hepoch. reflexivity.
  - rewrite Hrun; [reflexivity | simpl; lia].
Defined.

Lemma first_epoch_returns_witness :
  epoch demo_self = 0%nat /\
  memory demo_self <> [] /\
  optimizer demo_self <> None /\
  exists delta self',
    _epoch demo_self = (Ok delta, self') /\
    size_batch self' = length (memory demo_self).
Proof.
  split; [reflexivity |]. split; [discriminate |]. split; [discriminate |].
  apply (@first_epoch_returns demo demo_self).
  - reflexivity.
  - discriminate.
  - reflexivity.
  - reflexivity.
  - discriminate.
  - repeat constructor.
  - intros net rows. split; [apply length_map |].
    apply Forall_forall. intros row Hrow.
    apply in_map_iff in Hrow as [x [<- _]]. simpl. lia.
Defined.

Lemma push_without_duplication_witness :
  truthy (betas_for_duplication
            (demo_object_with demo_config 0 (PyList []) (PyArray [0; 1]) []))
  = Ok false /\
  memory
    (snd (push [5; 6] 0 3 [7; 8] false 4 (Some 2)
            (demo_object_with demo_config 0 (PyList []) (PyArray [0; 1]) [])))
  = [ {| state := [5; 6]; action := O; reward := 3; next_state := [7; 8];
         terminal := false; cost := 4; beta := 2 |} ] /\
  push [5; 6] 0 3 [7; 8] false 4 None
    (demo_object_with demo_config 0 (PyList []) (PyArray [0; 1]) [])
  = (Raise TypeError,
     demo_object_with demo_config 0 (PyList []) (PyArray [0; 1]) []).
Proof.
  destruct (proj1 (@push_without_duplication demo
                     (demo_object_with demo_config 0 (PyList [])
                        (PyArray [0; 1]) [])
                     [5; 6] 0%nat 3 [7; 8] false 4) eq_refl)
    as [Hsome Hnone].
  split; [reflexivity |]. split.
  - rewrite Hsome. reflexivity.
  - exact Hnone.
Defined.

Lemma compute_all_hulls_one_per_state_witness :
  exists hulls,
    compute_all_hulls [[3; 1]; [3; 1]; [5; 1]; [5; 1]] 2 demo_self
    = (Ok hulls, demo_self) /\
    length hulls = 2%nat /\
    compute_all_hulls [[3; 1]; [3; 1]; [5; 1]; [5; 1]] 0 demo_self
    = (Raise ValueError, demo_self).
Proof.
  assert (Hh : exists hulls,
             compute_all_hulls [[3; 1]; [3; 1]; [5; 1]; [5; 1]] 2 demo_self
             = (Ok hulls, demo_self))
    by (eexists; vm_compute; reflexivity).
  destruct Hh as [hulls Hh]. exists hulls.
  destruct (@compute_all_hulls_one_per_state demo
              [[3; 1]; [3; 1]; [5; 1]; [5; 1]] 2 demo_self) as [Hone _].
  destruct (Hone hulls demo_self Hh) as [_ [_ [Hlen _]]].
  split; [exact Hh |]. split; [exact Hlen |].
  apply (proj2 (@compute_all_hulls_one_per_state demo
                  [[3; 1]; [3; 1]; [5; 1]; [5; 1]] 0 demo_self)
           eq_refl 2%nat eq_refl).
Defined.

Lemma mixtures_in_declared_order_witness :
  Nat.le (length [1 # 2]) (length [demo_hull]) /\
  fst (compute_all_optimal_mixtures
         (map ObjTensor [1 # 2]) (map ObjHull [demo_hull]) demo_self)
  = Ok [ {| inf := {| hp_action := O; hp_budget := 0; qc := 0; qr := 1 |};
            sup := {| hp_action := O; hp_budget := 0; qc := 0; qr := 1 |};
            probability_sup := 0 |} ] /\
  Nat.lt (length [demo_hull]) (length [1 # 2; 1]) /\
  fst (compute_all_optimal_mixtures
         (map ObjTensor [1 # 2; 1]) (map ObjHull [demo_hull]) demo_self)
  = Raise IndexError.
Proof.
  split; [simpl; lia |]. split.
  - rewrite (proj1 (@mixtures_in_declared_order demo
                      [1 # 2] [demo_hull] demo_self));
      [reflexivity | simpl; lia].
  - split; [simpl; lia |].
    rewrite (proj2 (@mixtures_in_declared_order demo
                      [1 # 2; 1] [demo_hull] demo_self));
      [reflexivity | simpl; lia].
Defined.

Lemma run_returns_within_first_epoch_witness :
  exists net delta,
    fst (run (demo_object demo_config_converging 0)) = Ok net /\
    fst (run_loop _epoch
           (seq 0 (max_ftq_epochs
                     (config (demo_object demo_config_converging 0))))
           (demo_object demo_config_converging 0)) = Ok [delta] /\
    delta < 100.
Proof.
  assert (Hrun : exists net,
             fst (run (demo_object demo_config_converging 0)) = Ok net)
    by (eexists; vm_compute; reflexivity).
  destruct Hrun as [net Hrun]. exists net.
  destruct (@run_returns_within_first_epoch demo
              (demo_object demo_config_converging 0) net Hrun)
    as [Hzero | [delta [Hloop [Hlt | Hone]]]].
  - discriminate Hzero.
  - exists delta. auto.
  - discriminate Hone.
Defined.

Lemma run_leaves_last_epoch_index_witness :
  (0 < max_ftq_epochs (config demo_self))%nat /\
  (epoch (snd (run demo_self)) < 3)%nat /\
  max_ftq_epochs (config (demo_object demo_config_no_epochs 0)) = 0%nat /\
  run (demo_object demo_config_no_epochs 0)
  = (Ok (_value_network (demo_object demo_config_no_epochs 0)),
     demo_object demo_config_no_epochs 0).
Proof.
  assert (Hmax : (0 < max_ftq_epochs (config demo_self))%nat)
    by (simpl; lia).
  split; [exact Hmax |]. split.
  - apply (proj1 (@run_leaves_last_epoch_index demo demo_self) Hmax).
  - split; [reflexivity |].
    apply (proj2 (@run_leaves_last_epoch_index demo
                    (demo_object demo_config_no_epochs 0)) eq_refl).
Defined.

Lemma evaluated_batch_is_cartesian_product_witness :
  squeeze_drops_state_axis [[3; 4]; [5; 6]] = false /\
  state_budget_rows [[3; 4]; [5; 6]] [0; 1]
  = [[3; 4; 0]; [3; 4; 1]; [5; 6; 0]; [5; 6; 1]] /\
  length (state_budget_rows [[3; 4]; [5; 6]] [0; 1]) = 4%nat.
Proof.
  split; [reflexivity |]. split.
  - rewrite (proj2 (@evaluated_batch_is_cartesian_product
                      [[3; 4]; [5; 6]] [0; 1]) eq_refl).
    reflexivity.
  - rewrite (proj1 (@evaluated_batch_is_cartesian_product
                      [[3; 4]; [5; 6]] [0; 1])).
    reflexivity.
Defined.

Lemma evaluated_batch_is_tiled_for_scalar_states_witness :
  squeeze_drops_state_axis [[3]; [5]; [7]] = true /\
  Nat.lt 3 (Nat.mul (length [[3]; [5]; [7]]) (length [0; 1])) /\
  nth_error (state_budget_rows [[3]; [5]; [7]] [0; 1]) 3 = Some ([3] ++ [1]) /\
  nth_error (cartesian_product [[3]; [5]; [7]] [0; 1]) 3 = Some [5; 1].
Proof.
  split; [reflexivity |]. split; [simpl; lia |]. split; [| reflexivity].
  apply (@evaluated_batch_is_tiled_for_scalar_states
           [[3]; [5]; [7]] [0; 1] 3 [3] 1);
    [reflexivity | simpl; lia | reflexivity | reflexivity].
Defined.

Lemma loss_rejects_action_out_of_range_witness :
  Exists (fun a => (n_actions demo_self <= a)%nat) [O; 1%nat] /\
  exists e,
    _compute_loss [[1; 2; 1]; [3; 4; 1 # 2]] [O; 1%nat] [1; 2] [5; 7] demo_self
    = (Raise e, demo_self) /\
    _fit [[1; 2; 1]; [3; 4; 1 # 2]] [O; 1%nat] [1; 2] [5; 7] demo_self
    = (Raise e, demo_self).
Proof.
  assert (Hex : Exists (fun a => (n_actions demo_self <= a)%nat) [O; 1%nat])
    by (apply Exists_cons_tl, Exists_cons_hd; simpl; lia).
  split; [exact Hex |].
  apply (@loss_rejects_action_out_of_range demo
           [[1; 2; 1]; [3; 4; 1 # 2]] [O; 1%nat] [1; 2] [5; 7]
           demo_self eq_refl
           ltac:(repeat constructor) eq_refl Hex).
Defined.

Lemma run_raises_in_second_epoch_witness :
  (2 <= max_ftq_epochs (config demo_self))%nat /\
  exists delta,
    fst (_epoch (set_epoch demo_self 0)) = Ok delta /\
    delta_stop (config demo_self) <= delta /\
    fst (run demo_self) = Raise RuntimeError /\
    epoch (snd (run demo_self)) = 1%nat.
Proof.
  assert (Hmax : (2 <= max_ftq_epochs (config demo_self))%nat)
    by (simpl; lia).
  assert (Hepoch : exists delta self1,
             _epoch (set_epoch demo_self 0) = (Ok delta, self1) /\
             delta_stop (config demo_self) <= delta).
  { do 2 eexists. split; [vm_compute; reflexivity |].
    vm_compute. discriminate. }
  destruct Hepoch as [delta [self1 [Hepoch Hle]]].
  split; [exact Hmax |]. exists delta.
  split; [rewrite Hepoch; reflexivity |]. split; [exact Hle |].
  destruct (proj1 (@run_raises_in_second_epoch demo demo_self delta self1
                     Hmax Hepoch Hle)) as [self' [Hrun He]].
  rewrite Hrun. split; [reflexivity | exact He].
Defined.

